(** * go_fcm: an authenticated HTTP gateway in front of Firebase Cloud Messaging

    Shallow embedding of [main.go].  The gateway is a gin router with two
    middlewares (bearer-token check, state injection) and four POST handlers
    that forward to the Firebase messaging client.

    What is embedded from the repository: every function of [main.go]
    ([main], [StateMiddleware], [publishDryRun], [BroadcastMsg],
    [SubscribeToTopic], [UnsubscribeFromTopic], [APIKeyAuthMiddleware]).

    What the repository calls but does not contain:
    - the gin framework: the handful of [gin.Context] and response-writer
      methods the handlers call are transcribed from gin's [context.go] and
      [response_writer.go] (section "gin" below);
    - the binding engine behind [Context.Bind] (content-type dispatch,
      encoding/json) and the Firebase client: both are interfaces here
      ([Binding], [Messaging]) and every theorem holds for all their
      implementations.

    Two facts about gin shape the results.  [Context.Abort] in the filter
    keeps every later handler from running.  And [Context.Bind] is the
    must-bind variant: when binding fails it aborts the request with status
    400 and writes the header immediately, so that the status a handler
    asks for afterwards is ignored, while the handler itself, which drops
    the error [Bind] returns, runs on. *)

From Stdlib Require Import ZArith String Ascii List Lia.
From stdpp Require Import base option list gmap strings pretty.

Local Open Scope Z_scope.

(** ** Go strings

    A Go string is a byte sequence; [string] (a list of 8-bit [ascii]) is the
    same data. *)

Module strings.

(** [strings.HasPrefix(s, prefix)] *)
Definition HasPrefix (s prefix : string) : bool := String.prefix prefix s.

(** [strings.TrimPrefix(s, prefix)]:
    [if HasPrefix(s, prefix) { return s[len(prefix):] }; return s] *)
Definition TrimPrefix (s prefix : string) : string :=
  if HasPrefix s prefix
  then String.substring (String.length prefix)
                        (String.length s - String.length prefix)%nat s
  else s.

End strings.

(** A Go [error] value is represented by the text its [Error()] method
    returns; that text is all the gateway ever uses of it ([%s], logging). *)
Definition error := string.

(** [fmt]'s [%d] verb on an [int]. *)
Definition fmt_d (n : Z) : string := pretty n.

(** ** HTTP status codes used by the gateway ([net/http] constants) *)

Definition StatusOK : Z := 200.
Definition StatusAccepted : Z := 202.
Definition StatusBadRequest : Z := 400.
Definition StatusUnauthorized : Z := 401.
Definition StatusInternalServerError : Z := 500.
Definition StatusBadGateway : Z := 502.

(** ** Firebase messaging types ([firebase.google.com/go/v4/messaging]) *)

Module messaging.

(** [*messaging.Client]: an opaque handle. *)
Definition Client := nat.

Module Notification.
Record t := mk {
  Title : string;
  Body : string;
  ImageURL : string
}.
End Notification.

(** [messaging.Message].  [Notification] is a pointer field ([None] is
    nil).  The fields the gateway never assigns (Data, Android, Webpush,
    APNS, FCMOptions) stay at their zero value and are not represented. *)
Module Message.
Record t := mk {
  Notification : option Notification.t;
  Token : string;
  Topic : string;
  Condition : string
}.
End Message.

Module ErrorInfo.
Record t := mk {
  Index : Z;
  Reason : string
}.
End ErrorInfo.

Module TopicManagementResponse.
Record t := mk {
  SuccessCount : Z;
  FailureCount : Z;
  Errors : list ErrorInfo.t
}.
End TopicManagementResponse.

(** One call on the client, as the provider sees it. *)
Inductive Call :=
| CallSend (cl : Client) (m : Message.t)
| CallSubscribeToTopic (cl : Client) (tokens : list string) (topic : string)
| CallUnsubscribeFromTopic (cl : Client) (tokens : list string) (topic : string).

End messaging.

(** The provider.  Its three operations return Go's [(value, error)] pair as
    a sum ([inl] the value when [err == nil], [inr] the error otherwise) and
    may depend on, and change, a provider-side state [PS] the gateway knows
    nothing about. *)
Class Messaging (PS : Type) := {
  Client_Send :
    messaging.Client -> messaging.Message.t -> PS -> (string + error) * PS;
  Client_SubscribeToTopic :
    messaging.Client -> list string -> string -> PS ->
    (messaging.TopicManagementResponse.t + error) * PS;
  Client_UnsubscribeFromTopic :
    messaging.Client -> list string -> string -> PS ->
    (messaging.TopicManagementResponse.t + error) * PS
}.

(** ** The gateway's own types ([main.go], lines 17-39) *)

Record AppState := mkAppState { MsgClient : messaging.Client }.

Module Notification.
Record t := mk {
  Title : string;   (* json:"title" *)
  Body : string     (* json:"body" *)
}.
(** The Go zero value. *)
Definition zero : t := mk "" "".
End Notification.

Module PublishInput.
Record t := mk {
  Token : string;                  (* json:"to" *)
  Notification : Notification.t    (* json:"notification" *)
}.
(** What [var p PublishInput] holds before binding. *)
Definition zero : t := mk "" Notification.zero.
End PublishInput.

Module BroadCastInput.
Record t := mk {
  Topic : string;                  (* json:"topic" *)
  Notification : Notification.t    (* json:"notification" *)
}.
Definition zero : t := mk "" Notification.zero.
End BroadCastInput.

Module SubscribeInput.
Record t := mk {
  Tokens : list string;            (* json:"tokens" *)
  Topic : string                   (* json:"topic" *)
}.
Definition zero : t := mk [] "".
End SubscribeInput.

(** ** net/http requests *)

Record Request := mkRequest {
  Method : string;
  Path : string;
  Header : gmap string (list string);
  ReqBody : string
}.

(** [http.Header.Get]: the first value stored under the key, or the empty
    string.  (Keys are stored in canonical form; "Authorization" is.) *)
Definition Header_Get (h : gmap string (list string)) (key : string) : string :=
  match h !! key with
  | Some (v :: _) => v
  | _ => ""
  end.

(** The binding engine behind [Context.ShouldBind] (selected by method and
    Content-Type, then decoding and validating).  For each target type it
    returns what the variable, zero-valued before the call, holds afterwards,
    and the error if any.  encoding/json may have assigned some fields before
    it reports a type mismatch, so a failed bind need not leave the zero
    value. *)
Class Binding := {
  ShouldBind_PublishInput : Request -> PublishInput.t * option error;
  ShouldBind_BroadCastInput : Request -> BroadCastInput.t * option error;
  ShouldBind_SubscribeInput : Request -> SubscribeInput.t * option error
}.

(** ** gin

    The part of [github.com/gin-gonic/gin] the gateway runs through:
    the response writer ([response_writer.go]), the context methods the
    handlers call ([context.go]), the handler chain ([Context.Next],
    [Context.Abort]) and the route table. *)

(** Addresses of heap cells holding an [AppState] ([*AppState]). *)
Definition loc := positive.

Module gin.

(** [gin.H], restricted to string values (all the gateway stores in one).
    [Context.JSON] marshals it with encoding/json; the response body is
    kept as the map itself rather than its serialised bytes. *)
Definition H := list (string * string).

(** [any], as stored under [Context.Keys]: the only dynamic type the
    gateway ever stores is [*AppState]. *)
Inductive any :=
| Nil
| PtrAppState (p : loc).

(** [responseWriter]: gin's pending [status] and "headers written" flag
    ([size != noWritten]), and what the underlying [http.ResponseWriter]
    has put on the wire. *)
Record ResponseWriter := mkWriter {
  status : Z;
  written : bool;
  wire_status : option Z;
  wire_body : list H
}.

Definition Written (w : ResponseWriter) : bool := written w.

(** [func (w *responseWriter) WriteHeader(code int)]: a status can no
    longer be changed once the headers are written (gin only prints a
    warning). *)
Definition WriteHeader (w : ResponseWriter) (code : Z) : ResponseWriter :=
  if (0 <? code) && negb (status w =? code) then
    if Written w then w
    else mkWriter code (written w) (wire_status w) (wire_body w)
  else w.

(** [func (w *responseWriter) WriteHeaderNow()] *)
Definition WriteHeaderNow (w : ResponseWriter) : ResponseWriter :=
  if negb (Written w)
  then mkWriter (status w) true (Some (status w)) (wire_body w)
  else w.

(** [func (w *responseWriter) Write(data []byte)] *)
Definition Write (w : ResponseWriter) (data : H) : ResponseWriter :=
  let w := WriteHeaderNow w in
  mkWriter (status w) (written w) (wire_status w) (wire_body w ++ [data]).

(** [abortIndex int8 = math.MaxInt8 >> 1] *)
Definition abortIndex : Z := 63.

Record Context := mkContext {
  Request_ : Request;
  Writer : ResponseWriter;
  Keys : gmap string any;
  index : Z;
  Errors : list error
}.

Definition set_Writer (c : Context) (w : ResponseWriter) : Context :=
  mkContext (Request_ c) w (Keys c) (index c) (Errors c).

Definition set_index (c : Context) (i : Z) : Context :=
  mkContext (Request_ c) (Writer c) (Keys c) i (Errors c).

(** [engine.allocateContext] followed by [Context.reset]. *)
Definition reset (r : Request) : Context :=
  mkContext r (mkWriter StatusOK false None []) ∅ (-1) [].

(** [func (c *Context) GetHeader(key string) string] *)
Definition GetHeader (c : Context) (key : string) : string :=
  Header_Get (Header (Request_ c)) key.

(** [func (c *Context) Set(key string, value any)] ([Set] is reserved) *)
Definition Set_ (c : Context) (key : string) (value : any) : Context :=
  mkContext (Request_ c) (Writer c) (<[key := value]> (Keys c))
            (index c) (Errors c).

(** [func (c *Context) Get(key string) (value any, exists bool)] *)
Definition Get (c : Context) (key : string) : any * bool :=
  match Keys c !! key with
  | Some v => (v, true)
  | None => (Nil, false)
  end.

(** [func (c *Context) Status(code int)] *)
Definition Status (c : Context) (code : Z) : Context :=
  set_Writer c (WriteHeader (Writer c) code).

(** [func bodyAllowedForStatus(status int) bool] *)
Definition bodyAllowedForStatus (code : Z) : bool :=
  if (100 <=? code) && (code <=? 199) then false
  else if code =? 204 then false
  else if code =? 304 then false
  else true.

(** [func (c *Context) JSON(code int, obj any)], through
    [Context.Render]. *)
Definition JSON (c : Context) (code : Z) (obj : H) : Context :=
  let c := Status c code in
  if negb (bodyAllowedForStatus code)
  then set_Writer c (WriteHeaderNow (Writer c))
  else set_Writer c (Write (Writer c) obj).

(** [func (c *Context) Abort()] *)
Definition Abort (c : Context) : Context := set_index c abortIndex.

(** [func (c *Context) AbortWithStatus(code int)] *)
Definition AbortWithStatus (c : Context) (code : Z) : Context :=
  let c := Status c code in
  let c := set_Writer c (WriteHeaderNow (Writer c)) in
  Abort c.

(** [func (c *Context) Error(err error) *Error] *)
Definition Error (c : Context) (err : error) : Context :=
  mkContext (Request_ c) (Writer c) (Keys c) (index c) (Errors c ++ [err]).

(** [func (c *Context) AbortWithError(code int, err error) *Error] *)
Definition AbortWithError (c : Context) (code : Z) (err : error) : Context :=
  Error (AbortWithStatus c code) err.

(** [func (c *Context) MustBindWith(obj any, b binding.Binding) error],
    given what [ShouldBindWith] returned:
    [if err := c.ShouldBindWith(obj, b); err != nil {
       c.AbortWithError(http.StatusBadRequest, err).SetType(ErrorTypeBind)
       return err }
     return nil].
    On an error the request is aborted with status 400, written at once,
    and the error is handed back to the caller. *)
Definition MustBindWith {T} (c : Context) (bound : T * option error)
  : T * option error * Context :=
  match snd bound with
  | Some err => (bound, AbortWithError c StatusBadRequest err)
  | None => (bound, c)
  end.

(** [func (c *Context) Bind(obj any) error]:
    [b := binding.Default(c.Request.Method, c.ContentType());
     return c.MustBindWith(obj, b)].
    The engine [ShouldBind] stands for the binding selected and run on the
    request.  The result is the bound variable, the error returned and the
    context. *)
Definition Bind {T} (c : Context) (ShouldBind : Request -> T * option error)
  : T * option error * Context :=
  MustBindWith c (ShouldBind (Request_ c)).

(** How a handler ends: by returning, or by panicking with a value. *)
Inductive Outcome (W : Type) :=
| Returned (c : Context) (w : W)
| Panicked (v : string) (c : Context) (w : W).
Arguments Returned {W}.
Arguments Panicked {W}.

(** [gin.HandlerFunc].  A Go handler receives the context, which knows the
    rest of the chain; here the handler receives [c.Next] as its first
    argument.  [W] is everything outside the context a handler can touch. *)
Definition HandlerFunc (W : Type) : Type :=
  (Context -> W -> Outcome W) -> Context -> W -> Outcome W.

(** The loop of [func (c *Context) Next()],
    [for c.index < len(c.handlers) { c.handlers[c.index](c); c.index++ }],
    entered with [hs] the handlers from position [pos] on.  [c.index] never
    decreases, so it is either [pos] (the head runs) or beyond it (the head
    is skipped: a nested [Next] already ran it, or the chain was
    aborted). *)
Fixpoint loop {W} (hs : list (HandlerFunc W)) (pos : Z) (c : Context) (w : W)
  : Outcome W :=
  match hs with
  | [] => Returned c w
  | h :: tl =>
      if index c =? pos then
        match h (fun c' w' => loop tl (pos + 1) (set_index c' (index c' + 1)) w')
                c w with
        | Returned c1 w1 => loop tl (pos + 1) (set_index c1 (index c1 + 1)) w1
        | Panicked v c1 w1 => Panicked v c1 w1
        end
      else loop tl (pos + 1) c w
  end.

(** [func (c *Context) Next()] on a fresh context: [c.index++] and the
    loop over the whole chain. *)
Definition Next {W} (hs : list (HandlerFunc W)) (c : Context) (w : W)
  : Outcome W :=
  loop hs 0 (set_index c (index c + 1)) w.

(** [gin.Logger()]: times the rest of the chain and prints an access line
    on gin's own writer (not represented). *)
Definition Logger {W} : HandlerFunc W := fun next c w => next c w.

(** [gin.Recovery()]: a panic below is recovered and answered with 500. *)
Definition Recovery {W} : HandlerFunc W := fun next c w =>
  match next c w with
  | Panicked _ c' w' => Returned (AbortWithStatus c' StatusInternalServerError) w'
  | r => r
  end.

(** [gin.Engine]: the middlewares of the root group and the route table.
    A route stores the chain combined when it was registered
    ([group.combineHandlers]). *)
Record Engine (W : Type) := mkEngine {
  Handlers : list (HandlerFunc W);
  trees : list (string * string * list (HandlerFunc W))
}.
Arguments mkEngine {W}.
Arguments Handlers {W}.
Arguments trees {W}.

(** [gin.Default()] *)
Definition Default {W} : Engine W := mkEngine [Logger; Recovery] [].

(** [func (engine *Engine) Use(middleware ...HandlerFunc)] *)
Definition Use {W} (e : Engine W) (middleware : HandlerFunc W) : Engine W :=
  mkEngine (Handlers e ++ [middleware]) (trees e).

(** [func (group *RouterGroup) POST(relativePath string, handlers ...)] *)
Definition POST {W} (e : Engine W) (relativePath : string)
           (handler : HandlerFunc W) : Engine W :=
  mkEngine (Handlers e)
           (trees e ++ [("POST", relativePath, Handlers e ++ [handler])]).

(** Route lookup for static paths: exact match on method and path. *)
Fixpoint getValue {W} (ts : list (string * string * list (HandlerFunc W)))
         (method path : string) : option (list (HandlerFunc W)) :=
  match ts with
  | [] => None
  | (m, p, hs) :: tl =>
      if String.eqb m method && String.eqb p path then Some hs
      else getValue tl method path
  end.

(** What the client receives: the status line ([None] when the connection
    was dropped before any header was sent) and the bodies written. *)
Record Response := mkResponse {
  StatusCode : option Z;
  Body : list H
}.

(** [func (engine *Engine) ServeHTTP] / [handleHTTPRequest] for a request
    that matches a route: run the chain, then [WriteHeaderNow].  A panic
    that reaches net/http closes the connection.  Requests matching no
    route (gin's redirect and 404 logic) are outside this model: [None]. *)
Definition ServeHTTP {W} (e : Engine W) (r : Request) (w : W)
  : option (Response * W) :=
  match getValue (trees e) (Method r) (Path r) with
  | None => None
  | Some hs =>
      match Next hs (reset r) w with
      | Returned c w' =>
          let rw := WriteHeaderNow (Writer c) in
          Some (mkResponse (wire_status rw) (wire_body rw), w')
      | Panicked _ c w' =>
          Some (mkResponse (wire_status (Writer c)) (wire_body (Writer c)), w')
      end
  end.

End gin.

(** ** Logging ([github.com/charmbracelet/log]) *)

Module log.

Inductive Level := InfoLevel | ErrorLevel | FatalLevel.

(** The values the gateway passes as key/value arguments. *)
Inductive Value :=
| VString (s : string)
| VError (e : error)
| VResponse (r : messaging.TopicManagementResponse.t).

Record Entry := mkEntry {
  level : Level;
  msg : string;
  keyvals : list (string * Value)
}.

End log.

(** [fmt]'s [%v] verb on a [messaging.Notification] struct value: the fields
    in braces, separated by spaces. *)
Definition fmt_v_Notification (n : messaging.Notification.t) : string :=
  "{" +:+ messaging.Notification.Title n +:+ " " +:+
  messaging.Notification.Body n +:+ " " +:+
  messaging.Notification.ImageURL n +:+ "}".

(** ** The world outside a request

    Everything a handler can read or change besides its own [gin.Context]:
    the process environment, the heap cells holding [AppState] values, the
    provider (its state and the calls made to it so far) and the log. *)

Record World (PS : Type) := mkWorld {
  env : gmap string string;
  heap : gmap loc AppState;
  fcm : PS;
  calls : list messaging.Call;
  logs : list log.Entry
}.
Arguments mkWorld {PS}.
Arguments env {PS}.
Arguments heap {PS}.
Arguments fcm {PS}.
Arguments calls {PS}.
Arguments logs {PS}.

(** What happens at start-up outside [main.go]: what [godotenv.Load] finds
    in the [.env] file, and what [firebase.NewApp] and [app.Messaging]
    return. *)
Record Startup := mkStartup {
  dotenv : gmap string string + error;
  NewApp : option error;
  Messaging_ : messaging.Client + error
}.

Section Gateway.

Context {PS : Type} `{!Messaging PS} `{!Binding}.

Abbreviation World := (World PS).
Abbreviation HandlerFunc := (gin.HandlerFunc World).
Abbreviation Returned := (@gin.Returned World).
Abbreviation Panicked := (@gin.Panicked World).

(** [os.Getenv(key)]: the empty string when the variable is unset. *)
Definition Getenv (w : World) (key : string) : string :=
  default "" (env w !! key).

Definition log_append (w : World) (e : log.Entry) : World :=
  mkWorld (env w) (heap w) (fcm w) (calls w) (logs w ++ [e]).

Definition log_Info (w : World) (msg : string)
           (keyvals : list (string * log.Value)) : World :=
  log_append w (log.mkEntry log.InfoLevel msg keyvals).

Definition log_Error (w : World) (msg : string)
           (keyvals : list (string * log.Value)) : World :=
  log_append w (log.mkEntry log.ErrorLevel msg keyvals).

(** A call on the provider client: the provider answers and moves to its
    next state; the call is recorded. *)
Definition provider_call {A} (w : World) (call : messaging.Call)
           (answer : A * PS) : A * World :=
  (fst answer,
   mkWorld (env w) (heap w) (snd answer) (calls w ++ [call]) (logs w)).

(** [client.Send(ctx, message)] *)
Definition Send (cl : messaging.Client) (message : messaging.Message.t)
           (w : World) : (string + error) * World :=
  provider_call w (messaging.CallSend cl message)
                (Client_Send cl message (fcm w)).

(** [client.SubscribeToTopic(ctx, tokens, topic)] *)
Definition SubscribeToTopic_call (cl : messaging.Client)
           (tokens : list string) (topic : string) (w : World)
  : (messaging.TopicManagementResponse.t + error) * World :=
  provider_call w (messaging.CallSubscribeToTopic cl tokens topic)
                (Client_SubscribeToTopic cl tokens topic (fcm w)).

(** [client.UnsubscribeFromTopic(ctx, tokens, topic)] *)
Definition UnsubscribeFromTopic_call (cl : messaging.Client)
           (tokens : list string) (topic : string) (w : World)
  : (messaging.TopicManagementResponse.t + error) * World :=
  provider_call w (messaging.CallUnsubscribeFromTopic cl tokens topic)
                (Client_UnsubscribeFromTopic cl tokens topic (fcm w)).

(** [appState, _ := ctx.Get("state")], the type assertion of [appState]
    to a pointer to [AppState] (it panics on a nil interface) and the
    dereference [state.MsgClient]. *)
Definition get_MsgClient (ctx : gin.Context) (w : World)
  : messaging.Client + string :=
  match fst (gin.Get ctx "state") with
  | gin.PtrAppState state =>
      match heap w !! state with
      | Some st => inl (MsgClient st)
      | None => inr "invalid memory address or nil pointer dereference"
      end
  | gin.Nil =>
      inr "interface conversion: interface {} is nil, not *main.AppState"
  end.

(** [func StateMiddleware(state *AppState) gin.HandlerFunc]
    (main.go, lines 72-77) *)
Definition StateMiddleware (state : loc) : HandlerFunc := fun next c w =>
  let c := gin.Set_ c "state" (gin.PtrAppState state) in
  next c w.

(** [func publishDryRun(ctx *gin.Context)] (main.go, lines 79-101).
    The error [ctx.Bind] returns is dropped. *)
Definition publishDryRun : HandlerFunc := fun _ ctx w =>
  let '(p, _, ctx) :=
    gin.Bind ctx ShouldBind_PublishInput in
  let registrationToken := PublishInput.Token p in
  let notification :=
    messaging.Notification.mk
      (Notification.Title (PublishInput.Notification p))
      (Notification.Body (PublishInput.Notification p)) "" in
  let w := log_Info w ("notification is " +:+ fmt_v_Notification notification) [] in
  let message :=
    messaging.Message.mk (Some notification) registrationToken "" "" in
  match get_MsgClient ctx w with
  | inr v => Panicked v ctx w
  | inl client =>
      let '(result, w) := Send client message w in
      match result with
      | inr err =>
          let w := log_Error w "error sending message" [("error", log.VError err)] in
          let ctx := gin.JSON ctx StatusBadGateway
                       [("error", "error found while publishing message: " +:+ err)] in
          Returned ctx w
      | inl response =>
          let w := log_Info w ("Successfully sent message: " +:+ response) [] in
          let ctx := gin.Status ctx StatusAccepted in
          Returned ctx w
      end
  end.

(** [func BroadcastMsg(c *gin.Context)] (main.go, lines 103-122) *)
Definition BroadcastMsg : HandlerFunc := fun _ c w =>
  let '(b, _, c) :=
    gin.Bind c ShouldBind_BroadCastInput in
  let notification :=
    messaging.Notification.mk
      (Notification.Title (BroadCastInput.Notification b))
      (Notification.Body (BroadCastInput.Notification b)) "" in
  let message :=
    messaging.Message.mk (Some notification) "" (BroadCastInput.Topic b) "" in
  match get_MsgClient c w with
  | inr v => Panicked v c w
  | inl client =>
      let '(result, w) := Send client message w in
      match result with
      | inr err =>
          let w := log_Error w "error broadcasting message" [("error", log.VError err)] in
          let c := gin.JSON c StatusBadGateway
                     [("error", "error found while broadcasting message: " +:+ err)] in
          Returned c w
      | inl response =>
          let w := log_Info w "Successfully broadcasted message"
                            [("resp", log.VString response)] in
          let c := gin.Status c StatusAccepted in
          Returned c w
      end
  end.

(** The loop shared by both topic handlers (main.go, lines 137-140 and
    162-165):
    [var sb strings.Builder;
     for _, err := range response.Errors {
       fmt.Fprintf(&sb, "Code: %d, Message: %s", err.Index, err.Reason) }] *)
Definition errors_string (errors : list messaging.ErrorInfo.t) : string :=
  fold_left
    (fun sb err =>
       sb +:+ ("Code: " +:+ fmt_d (messaging.ErrorInfo.Index err) +:+
               ", Message: " +:+ messaging.ErrorInfo.Reason err))
    errors "".

(** [func SubscribeToTopic(c *gin.Context)] (main.go, lines 124-147) *)
Definition SubscribeToTopic : HandlerFunc := fun _ c w =>
  let '(s, _, c) :=
    gin.Bind c ShouldBind_SubscribeInput in
  match get_MsgClient c w with
  | inr v => Panicked v c w
  | inl client =>
      let '(result, w) :=
        SubscribeToTopic_call client (SubscribeInput.Tokens s)
                              (SubscribeInput.Topic s) w in
      match result with
      | inr err =>
          let w := log_Error w "error while subscribing to topic"
                             [("error", log.VError err)] in
          let c := gin.JSON c StatusBadGateway
                     [("error", "error found while subscribing to topic: " +:+ err)] in
          Returned c w
      | inl response =>
          if negb (messaging.TopicManagementResponse.FailureCount response =? 0) then
            let sb := errors_string (messaging.TopicManagementResponse.Errors response) in
            let w := log_Error w "error while subscribing to topic"
                               [("errors", log.VString sb)] in
            let c := gin.JSON c StatusBadGateway
                       [("errors", "errors while subscribing to topic: " +:+ sb)] in
            Returned c w
          else
            let w := log_Info w "Successfully subbed to topic"
                              [("resp", log.VResponse response)] in
            let c := gin.Status c StatusAccepted in
            Returned c w
      end
  end.

(** [func UnsubscribeFromTopic(c *gin.Context)] (main.go, lines 149-172) *)
Definition UnsubscribeFromTopic : HandlerFunc := fun _ c w =>
  let '(s, _, c) :=
    gin.Bind c ShouldBind_SubscribeInput in
  match get_MsgClient c w with
  | inr v => Panicked v c w
  | inl client =>
      let '(result, w) :=
        UnsubscribeFromTopic_call client (SubscribeInput.Tokens s)
                                  (SubscribeInput.Topic s) w in
      match result with
      | inr err =>
          let w := log_Error w "error while unsubscribing from topic"
                             [("error", log.VError err)] in
          let c := gin.JSON c StatusBadGateway
                     [("error", "error found while unsubscribing from topic: " +:+ err)] in
          Returned c w
      | inl response =>
          if negb (messaging.TopicManagementResponse.FailureCount response =? 0) then
            let sb := errors_string (messaging.TopicManagementResponse.Errors response) in
            let w := log_Error w "error while subscribing to topic"
                               [("errors", log.VString sb)] in
            let c := gin.JSON c StatusBadGateway
                       [("errors", "errors while subscribing to topic: " +:+ sb)] in
            Returned c w
          else
            let w := log_Info w "Successfully unsubbed from topic"
                              [("resp", log.VResponse response)] in
            let c := gin.Status c StatusAccepted in
            Returned c w
      end
  end.

(** [func APIKeyAuthMiddleware() gin.HandlerFunc] (main.go, lines 174-195) *)
Definition APIKeyAuthMiddleware : HandlerFunc := fun next c w =>
  let authHeader := gin.GetHeader c "Authorization" in
  if String.eqb authHeader "" || negb (strings.HasPrefix authHeader "Bearer ") then
    let c := gin.JSON c StatusUnauthorized
               [("error", "Unauthorized: Missing or invalid token")] in
    let c := gin.Abort c in
    Returned c w
  else
    let appApiKey := Getenv w "API_KEY" in
    let apiKey := strings.TrimPrefix authHeader "Bearer " in
    if negb (String.eqb apiKey appApiKey) then
      let c := gin.JSON c StatusUnauthorized
                 [("error", "Unauthorized: Invalid API Key")] in
      let c := gin.Abort c in
      Returned c w
    else
      next c w.

(** The router [main] builds (main.go, lines 62-68) around the pointer
    [state]. *)
Definition router (state : loc) : gin.Engine World :=
  let router := gin.Default in
  let router := gin.Use router APIKeyAuthMiddleware in
  let router := gin.Use router (StateMiddleware state) in
  let router := gin.POST router "/publish" publishDryRun in
  let router := gin.POST router "/broadcast" BroadcastMsg in
  let router := gin.POST router "/subscribe" SubscribeToTopic in
  let router := gin.POST router "/unsubscribe" UnsubscribeFromTopic in
  router.

(** How [main] ends up: [log.Fatal] exits the process, or the router
    serves. *)
Inductive Process :=
| Exited (w : World)
| Serving (router : gin.Engine World) (state : loc) (w : World).

Definition log_Fatal (w : World) (msg : string)
           (keyvals : list (string * log.Value)) : Process :=
  Exited (log_append w (log.mkEntry log.FatalLevel msg keyvals)).

(** [&AppState{...}]: a fresh cell. *)
Definition new_AppState (w : World) (st : AppState) : loc * World :=
  let l := fresh (dom (heap w)) in
  (l, mkWorld (env w) (<[l := st]> (heap w)) (fcm w) (calls w) (logs w)).

(** [func main()] (main.go, lines 41-70), up to [router.Run].
    [godotenv.Load] defines the variables of the file that the environment
    does not define yet.  [state] is built from [client] before [err] is
    tested; when [err] is not nil the process exits and the cell is never
    used, so it is allocated on the success branch here. *)
Definition main (s : Startup) (w : World) : Process :=
  match dotenv s with
  | inr envErr => log_Fatal w "Cannot read .env file" [("error", log.VError envErr)]
  | inl vars =>
      let w := mkWorld (env w ∪ vars) (heap w) (fcm w) (calls w) (logs w) in
      match NewApp s with
      | Some err => log_Fatal w "error while starting app" [("error", log.VError err)]
      | None =>
          let w := log_Info w "started app" [] in
          match Messaging_ s with
          | inr err =>
              log_Fatal w "Error getting messaging client" [("error", log.VError err)]
          | inl client =>
              let '(state, w) := new_AppState w (mkAppState client) in
              Serving (router state) state w
          end
      end
  end.

(** [router.Run]: the requests are served one after the other. *)
Fixpoint Run (e : gin.Engine World) (requests : list Request) (w : World)
  : list (option gin.Response) * World :=
  match requests with
  | [] => ([], w)
  | r :: rest =>
      match gin.ServeHTTP e r w with
      | None => let '(out, w) := Run e rest w in (None :: out, w)
      | Some (resp, w) => let '(out, w) := Run e rest w in (Some resp :: out, w)
      end
  end.

End Gateway.

(** ** Vocabulary of the properties *)

(** The four routes of the gateway. *)
Inductive endpoint := Publish | Broadcast | Subscribe | Unsubscribe.

Definition path_of (e : endpoint) : string :=
  match e with
  | Publish => "/publish"
  | Broadcast => "/broadcast"
  | Subscribe => "/subscribe"
  | Unsubscribe => "/unsubscribe"
  end.

(** [r] is a POST on the route [e]. *)
Definition targets (r : Request) (e : endpoint) : Prop :=
  Method r = "POST" /\ Path r = path_of e.

(** The value of the request's Authorization header, as the filter reads it. *)
Definition authorization (r : Request) : string :=
  Header_Get (Header r) "Authorization".

(** The text of one failed entry in the aggregated message. *)
Definition entry_text (e : messaging.ErrorInfo.t) : string :=
  "Code: " +:+ fmt_d (messaging.ErrorInfo.Index e) +:+
  ", Message: " +:+ messaging.ErrorInfo.Reason e.

(** Concatenation of strings with nothing in between. *)
Definition concat_strings (l : list string) : string :=
  fold_right String.append "" l.

(** The client a provider call was made through. *)
Definition client_of (call : messaging.Call) : messaging.Client :=
  match call with
  | messaging.CallSend cl _ => cl
  | messaging.CallSubscribeToTopic cl _ _ => cl
  | messaging.CallUnsubscribeFromTopic cl _ _ => cl
  end.

(** What the provider answers to a call. *)
Inductive Reply :=
| ReplySend (r : string + error)
| ReplyTopic (r : messaging.TopicManagementResponse.t + error).

(** The transport error of a reply, if it is one. *)
Definition reply_error (rep : Reply) : option error :=
  match rep with
  | ReplySend (inr err) | ReplyTopic (inr err) => Some err
  | _ => None
  end.

(** The failure count of a batch reply that is not a transport error. *)
Definition reply_failures (rep : Reply) : option Z :=
  match rep with
  | ReplyTopic (inl resp) => Some (messaging.TopicManagementResponse.FailureCount resp)
  | _ => None
  end.

Section Vocabulary.

Context {PS : Type} `{!Messaging PS} `{!Binding}.

(** The request carries [Authorization: Bearer <API_KEY>] for the key the
    environment holds now. *)
Definition authorized (w : World PS) (r : Request) : Prop :=
  authorization r = "Bearer " +:+ Getenv w "API_KEY".

(** The error of the binding step for the input type of the route. *)
Definition bind_error (e : endpoint) (r : Request) : option error :=
  match e with
  | Publish => snd (ShouldBind_PublishInput r)
  | Broadcast => snd (ShouldBind_BroadCastInput r)
  | Subscribe | Unsubscribe => snd (ShouldBind_SubscribeInput r)
  end.

(** The binding step failed and left the input struct at its zero value
    (what encoding/json does on text that is not JSON). *)
Definition bound_zero (e : endpoint) (r : Request) : Prop :=
  match e with
  | Publish => exists err, ShouldBind_PublishInput r = (PublishInput.zero, Some err)
  | Broadcast => exists err, ShouldBind_BroadCastInput r = (BroadCastInput.zero, Some err)
  | Subscribe | Unsubscribe =>
      exists err, ShouldBind_SubscribeInput r = (SubscribeInput.zero, Some err)
  end.

(** The provider message for a device token and a notification payload. *)
Definition token_message (to : string) (n : Notification.t) : messaging.Message.t :=
  messaging.Message.mk
    (Some (messaging.Notification.mk (Notification.Title n) (Notification.Body n) ""))
    to "" "".

(** The provider message for a topic and a notification payload. *)
Definition topic_message (topic : string) (n : Notification.t) : messaging.Message.t :=
  messaging.Message.mk
    (Some (messaging.Notification.mk (Notification.Title n) (Notification.Body n) ""))
    "" topic "".

(** The provider call a request on route [e] stands for, given the struct
    the binding step produced. *)
Definition call_for (e : endpoint) (r : Request) (cl : messaging.Client)
  : messaging.Call :=
  match e with
  | Publish =>
      let p := fst (ShouldBind_PublishInput r) in
      messaging.CallSend cl
        (token_message (PublishInput.Token p) (PublishInput.Notification p))
  | Broadcast =>
      let b := fst (ShouldBind_BroadCastInput r) in
      messaging.CallSend cl
        (topic_message (BroadCastInput.Topic b) (BroadCastInput.Notification b))
  | Subscribe =>
      let s := fst (ShouldBind_SubscribeInput r) in
      messaging.CallSubscribeToTopic cl (SubscribeInput.Tokens s) (SubscribeInput.Topic s)
  | Unsubscribe =>
      let s := fst (ShouldBind_SubscribeInput r) in
      messaging.CallUnsubscribeFromTopic cl (SubscribeInput.Tokens s) (SubscribeInput.Topic s)
  end.

(** The call a request stands for when its input struct is zero-valued. *)
Definition zero_call (e : endpoint) (cl : messaging.Client) : messaging.Call :=
  match e with
  | Publish => messaging.CallSend cl (token_message "" Notification.zero)
  | Broadcast => messaging.CallSend cl (topic_message "" Notification.zero)
  | Subscribe => messaging.CallSubscribeToTopic cl [] ""
  | Unsubscribe => messaging.CallUnsubscribeFromTopic cl [] ""
  end.

(** The provider's reply to a call made in provider state [ps], and the
    state it moves to. *)
Definition provider_reply (call : messaging.Call) (ps : PS) : Reply * PS :=
  match call with
  | messaging.CallSend cl m =>
      (ReplySend (fst (Client_Send cl m ps)), snd (Client_Send cl m ps))
  | messaging.CallSubscribeToTopic cl tokens topic =>
      (ReplyTopic (fst (Client_SubscribeToTopic cl tokens topic ps)),
       snd (Client_SubscribeToTopic cl tokens topic ps))
  | messaging.CallUnsubscribeFromTopic cl tokens topic =>
      (ReplyTopic (fst (Client_UnsubscribeFromTopic cl tokens topic ps)),
       snd (Client_UnsubscribeFromTopic cl tokens topic ps))
  end.

(** The label the handler of route [e] puts before a transport error. *)
Definition error_label (e : endpoint) : string :=
  match e with
  | Publish => "error found while publishing message: "
  | Broadcast => "error found while broadcasting message: "
  | Subscribe => "error found while subscribing to topic: "
  | Unsubscribe => "error found while unsubscribing from topic: "
  end.

(** The body a handler writes for a provider reply: nothing on success,
    one JSON object otherwise. *)
Definition reply_body (e : endpoint) (rep : Reply) : list gin.H :=
  match rep with
  | ReplySend (inl _) => []
  | ReplySend (inr err) | ReplyTopic (inr err) =>
      [[("error", error_label e +:+ err)]]
  | ReplyTopic (inl resp) =>
      if messaging.TopicManagementResponse.FailureCount resp =? 0 then []
      else [[("errors",
              "errors while subscribing to topic: " +:+
              concat_strings
                (map entry_text (messaging.TopicManagementResponse.Errors resp)))]]
  end.

(** The status a handler asks for: 202 on success, 502 otherwise. *)
Definition reply_status (rep : Reply) : Z :=
  match rep with
  | ReplySend (inl _) => StatusAccepted
  | ReplySend (inr _) | ReplyTopic (inr _) => StatusBadGateway
  | ReplyTopic (inl resp) =>
      if messaging.TopicManagementResponse.FailureCount resp =? 0
      then StatusAccepted else StatusBadGateway
  end.

(** The response to an authorized request as a function of the outcome of
    the binding step and of the provider's reply: a failed bind has
    already committed status 400. *)
Definition response_for (e : endpoint) (berr : option error) (rep : Reply)
  : gin.Response :=
  gin.mkResponse
    (Some (match berr with Some _ => StatusBadRequest | None => reply_status rep end))
    (reply_body e rep).

(** The handler [main] registers for the route. *)
Definition handler_of (e : endpoint) : gin.HandlerFunc (World PS) :=
  match e with
  | Publish => publishDryRun
  | Broadcast => BroadcastMsg
  | Subscribe => SubscribeToTopic
  | Unsubscribe => UnsubscribeFromTopic
  end.

(** The context a route handler is entered with: the two gin middlewares,
    the filter and the injector have each called [Next] (index 4) and the
    injector has stored the pointer. *)
Definition handler_context (state : loc) (r : Request) : gin.Context :=
  gin.set_index
    (gin.Set_ (gin.set_index (gin.reset r) 3) "state" (gin.PtrAppState state)) 4.

(** [c.Next] as the last handler of a chain sees it. *)
Definition last_next : gin.Context -> World PS -> gin.Outcome (World PS) :=
  fun c' w' => gin.Returned (gin.set_index c' (gin.index c' + 1)) w'.

(** What is on the wire. *)
Definition respond (rw : gin.ResponseWriter) : gin.Response :=
  gin.mkResponse (gin.wire_status rw) (gin.wire_body rw).

End Vocabulary.

(** The route a request is on, if any: a POST on one of the four paths. *)
Definition endpoint_of (r : Request) : option endpoint :=
  if String.eqb (Method r) "POST" then
    if String.eqb (Path r) "/publish" then Some Publish
    else if String.eqb (Path r) "/broadcast" then Some Broadcast
    else if String.eqb (Path r) "/subscribe" then Some Subscribe
    else if String.eqb (Path r) "/unsubscribe" then Some Unsubscribe
    else None
  else None.

(** The provider reports success: a send that returned no error, or a batch
    call that returned no error and counted no failure. *)
Definition reply_ok (rep : Reply) : bool :=
  match rep with
  | ReplySend (inl _) => true
  | ReplyTopic (inl resp) => messaging.TopicManagementResponse.FailureCount resp =? 0
  | _ => false
  end.


Section MoreVocabulary.

Context {PS : Type} `{!Messaging PS} `{!Binding}.

(** The chain [main] registers for a route. *)
Definition chain_of (state : loc) (e : endpoint)
  : list (gin.HandlerFunc (World PS)) :=
  [gin.Logger; gin.Recovery; APIKeyAuthMiddleware; StateMiddleware state;
   handler_of e].

(** The request is on a route and carries the key the environment holds. *)
Definition admits (w : World PS) (r : Request) : bool :=
  match endpoint_of r with
  | Some _ => String.eqb (authorization r) ("Bearer " +:+ Getenv w "API_KEY")
  | None => false
  end.

End MoreVocabulary.

(** ** A concrete deployment

    One provider and one binding engine, used to run the gateway on concrete
    requests.  The provider knows a list of registration tokens (its state);
    [Send] rejects a message addressed to nothing, the batch calls reject an
    empty token list or topic and otherwise report every unknown token as
    failed.  The binding engine decodes the handful of bodies below the way
    encoding/json does. *)

Module Demo.

Definition invalid_argument : error :=
  "exactly one of token, topic or condition must be specified".

Definition demo_Send (m : messaging.Message.t) : string + error :=
  if String.eqb (messaging.Message.Token m) "" &&
     String.eqb (messaging.Message.Topic m) ""
  then inr invalid_argument
  else inl "msg1".

Fixpoint failures (known tokens : list string) (idx : Z)
  : list messaging.ErrorInfo.t :=
  match tokens with
  | [] => []
  | t :: rest =>
      if existsb (String.eqb t) known then failures known rest (idx + 1)
      else messaging.ErrorInfo.mk idx "invalid-registration-token"
           :: failures known rest (idx + 1)
  end.

Definition demo_topic (known tokens : list string) (topic : string)
  : messaging.TopicManagementResponse.t + error :=
  match tokens with
  | [] => inr "no tokens specified"
  | _ =>
      if String.eqb topic "" then inr "topic name not specified"
      else
        let errs := failures known tokens 0 in
        inl (messaging.TopicManagementResponse.mk
               (Z.of_nat (length tokens) - Z.of_nat (length errs))
               (Z.of_nat (length errs)) errs)
  end.

#[export] Instance provider : Messaging (list string) := {|
  Client_Send _ m known := (demo_Send m, known);
  Client_SubscribeToTopic _ tokens topic known := (demo_topic known tokens topic, known);
  Client_UnsubscribeFromTopic _ tokens topic known := (demo_topic known tokens topic, known)
|}.

(** A double quote, and a JSON string literal. *)
Definition dq : string := String "034"%char EmptyString.
Definition js (s : string) : string := dq +:+ s +:+ dq.

Definition notification_json : string :=
  js "notification" +:+ ":{" +:+ js "title" +:+ ":" +:+ js "Hi" +:+ "," +:+
  js "body" +:+ ":" +:+ js "There" +:+ "}".

(** The body of a publish request: to tok_abc, title Hi, body There. *)
Definition body_publish : string :=
  "{" +:+ js "to" +:+ ":" +:+ js "tok_abc" +:+ "," +:+ notification_json +:+ "}".

(** The same with a string where the notification object belongs: the
    decoder assigns [to], then reports the type mismatch. *)
Definition body_publish_mistyped : string :=
  "{" +:+ js "to" +:+ ":" +:+ js "tok_abc" +:+ "," +:+
  js "notification" +:+ ":" +:+ js "oops" +:+ "}".

Definition body_broadcast : string :=
  "{" +:+ js "topic" +:+ ":" +:+ js "news" +:+ "," +:+ notification_json +:+ "}".

Definition body_broadcast_mistyped : string :=
  "{" +:+ js "topic" +:+ ":" +:+ js "news" +:+ "," +:+
  js "notification" +:+ ":" +:+ js "oops" +:+ "}".

(** Tokens t1 and t2, topic news. *)
Definition body_subscribe : string :=
  "{" +:+ js "tokens" +:+ ":[" +:+ js "t1" +:+ "," +:+ js "t2" +:+ "]," +:+
  js "topic" +:+ ":" +:+ js "news" +:+ "}".

(** Token t1 only, topic news. *)
Definition body_subscribe_one : string :=
  "{" +:+ js "tokens" +:+ ":[" +:+ js "t1" +:+ "]," +:+
  js "topic" +:+ ":" +:+ js "news" +:+ "}".

(** Token t1, topic news, then a second, numeric [topic] member: both
    fields are assigned before the type mismatch is reported. *)
Definition body_subscribe_mistyped : string :=
  "{" +:+ js "tokens" +:+ ":[" +:+ js "t1" +:+ "]," +:+
  js "topic" +:+ ":" +:+ js "news" +:+ "," +:+ js "topic" +:+ ":5}".

(** A publish body with no [to] member: it decodes, and leaves the token
    empty. *)
Definition body_publish_unaddressed : string :=
  "{" +:+ notification_json +:+ "}".

(** Text that is not JSON. *)
Definition body_truncated : string := "{".

Definition hi_there : Notification.t := Notification.mk "Hi" "There".

Definition mismatch (what field type : string) : error :=
  "json: cannot unmarshal " +:+ what +:+ " into Go struct field " +:+
  field +:+ " of type " +:+ type.

#[export] Instance binding : Binding := {|
  ShouldBind_PublishInput r :=
    if String.eqb (ReqBody r) body_publish
    then (PublishInput.mk "tok_abc" hi_there, None)
    else if String.eqb (ReqBody r) body_publish_unaddressed
    then (PublishInput.mk "" hi_there, None)
    else if String.eqb (ReqBody r) body_publish_mistyped
    then (PublishInput.mk "tok_abc" Notification.zero,
          Some (mismatch "string" "PublishInput.notification" "main.Notification"))
    else (PublishInput.zero, Some "unexpected EOF");
  ShouldBind_BroadCastInput r :=
    if String.eqb (ReqBody r) body_broadcast
    then (BroadCastInput.mk "news" hi_there, None)
    else if String.eqb (ReqBody r) body_broadcast_mistyped
    then (BroadCastInput.mk "news" Notification.zero,
          Some (mismatch "string" "BroadCastInput.notification" "main.Notification"))
    else (BroadCastInput.zero, Some "unexpected EOF");
  ShouldBind_SubscribeInput r :=
    if String.eqb (ReqBody r) body_subscribe
    then (SubscribeInput.mk ["t1"; "t2"] "news", None)
    else if String.eqb (ReqBody r) body_subscribe_one
    then (SubscribeInput.mk ["t1"] "news", None)
    else if String.eqb (ReqBody r) body_subscribe_mistyped
    then (SubscribeInput.mk ["t1"] "news",
          Some (mismatch "number" "SubscribeInput.topic" "string"))
    else (SubscribeInput.zero, Some "unexpected EOF")
|}.

(** The process environment and what start-up finds. *)
Definition startup : Startup :=
  mkStartup (inl {["API_KEY" := "secret123"]}) None (inl 7%nat).

(** The world before [main] runs: the provider knows tok_abc and t1. *)
Definition boot : World (list string) := mkWorld ∅ ∅ ["tok_abc"; "t1"] [] [].

(** The cell [main] allocates and the world it serves in. *)
Definition state : loc := 1%positive.
Definition world : World (list string) :=
  mkWorld {["API_KEY" := "secret123"]} {[state := mkAppState 7%nat]}
          ["tok_abc"; "t1"] []
          [log.mkEntry log.InfoLevel "started app" []].

(** The same process with no API_KEY in its environment. *)
Definition world_nokey : World (list string) :=
  mkWorld ∅ {[state := mkAppState 7%nat]} ["tok_abc"; "t1"] [] [].

(** The Authorization header of a caller who knows the key. *)
Definition bearer : string := "Bearer secret123".

(** A JSON POST on a route with the given Authorization header. *)
Definition request (e : endpoint) (auth body : string) : Request :=
  mkRequest "POST" (path_of e)
            {["Authorization" := [auth]; "Content-Type" := ["application/json"]]}
            body.

(** The same without an Authorization header. *)
Definition anonymous (e : endpoint) (body : string) : Request :=
  mkRequest "POST" (path_of e) {["Content-Type" := ["application/json"]]} body.

(** A GET on a path that only takes POST. *)
Definition get_publish : Request :=
  mkRequest "GET" "/publish" {["Authorization" := [bearer]]} "".

(** Five requests in a row: a publish, one with the wrong key, one on no
    route, a subscription and one without a header. *)
Definition batch : list Request :=
  [request Publish bearer body_publish;
   request Broadcast "Bearer wrong" body_broadcast;
   get_publish;
   request Subscribe bearer body_subscribe;
   anonymous Unsubscribe body_subscribe].

End Demo.

(** * Properties *)

(** ** Strings *)

Lemma substring_all (s : string) : String.substring 0 (String.length s) s = s.
Proof. induction s as [|a s IH]; simpl; [reflexivity | by rewrite IH]. Qed.

Lemma HasPrefix_app (p v : string) : strings.HasPrefix (p +:+ v) p = true.
Proof.
  unfold strings.HasPrefix. induction p as [|a p IH]; simpl.
  - by destruct v.
  - destruct (Ascii.ascii_dec a a); [exact IH | congruence].
Qed.

Lemma HasPrefix_inv (s p : string) :
  strings.HasPrefix s p = true -> exists v, s = p +:+ v.
Proof.
  unfold strings.HasPrefix. revert s.
  induction p as [|a p IH]; intros s Hs.
  - by exists s.
  - destruct s as [|b s]; simpl in Hs; [discriminate|].
    destruct (Ascii.ascii_dec a b) as [->|]; [|discriminate].
    destruct (IH _ Hs) as [v ->]. by exists v.
Qed.

Lemma TrimPrefix_app (p v : string) : strings.TrimPrefix (p +:+ v) p = v.
Proof.
  unfold strings.TrimPrefix. rewrite HasPrefix_app.
  induction p as [|a p IH]; simpl.
  - rewrite Nat.sub_0_r. apply substring_all.
  - exact IH.
Qed.

Lemma append_nil_r (s : string) : s +:+ "" = s.
Proof.
  induction s as [|a s IH]; [reflexivity|].
  change (String a (s +:+ "") = String a s). by rewrite IH.
Qed.

Lemma append_assoc (s1 s2 s3 : string) : (s1 +:+ s2) +:+ s3 = s1 +:+ (s2 +:+ s3).
Proof.
  induction s1 as [|a s1 IH]; [reflexivity|].
  change (String a ((s1 +:+ s2) +:+ s3) = String a (s1 +:+ (s2 +:+ s3))).
  by rewrite IH.
Qed.

(** A string builder fed in a loop holds the concatenation of what it was
    fed. *)
Lemma fold_left_append {A} (f : A -> string) (l : list A) (acc : string) :
  fold_left (fun sb x => sb +:+ f x) l acc = acc +:+ concat_strings (map f l).
Proof.
  revert acc. induction l as [|x l IH]; intros acc.
  - symmetry. apply append_nil_r.
  - change (fold_left (fun sb x => sb +:+ f x) l (acc +:+ f x) =
            acc +:+ (f x +:+ concat_strings (map f l))).
    by rewrite IH, append_assoc.
Qed.

Section Properties.

Context {PS : Type} `{!Messaging PS} `{!Binding}.
Implicit Types (w : World PS) (r : Request) (c : gin.Context).
Implicit Types (state : loc) (st : AppState) (e : endpoint).

(** ** The handler chain *)

Lemma loop_run (h : gin.HandlerFunc (World PS)) tl pos c w :
  gin.index c = pos ->
  gin.loop (h :: tl) pos c w =
  match h (fun c' w' =>
             gin.loop tl (pos + 1) (gin.set_index c' (gin.index c' + 1)) w')
          c w with
  | gin.Returned c1 w1 =>
      gin.loop tl (pos + 1) (gin.set_index c1 (gin.index c1 + 1)) w1
  | gin.Panicked v c1 w1 => gin.Panicked v c1 w1
  end.
Proof. intros <-. simpl. by rewrite Z.eqb_refl. Qed.

(** Once the index is past the end of the chain nothing runs any more. *)
Lemma loop_past (hs : list (gin.HandlerFunc (World PS))) pos c w :
  pos + Z.of_nat (length hs) <= gin.index c ->
  gin.loop hs pos c w = gin.Returned c w.
Proof.
  revert pos. induction hs as [|h tl IH]; intros pos Hle; simpl; [reflexivity|].
  rewrite length_cons in Hle.
  destruct (Z.eqb_spec (gin.index c) pos); [lia|]. apply IH. lia.
Qed.

Lemma route_of state e :
  gin.getValue (gin.trees (router state)) "POST" (path_of e) =
  Some [gin.Logger; gin.Recovery; APIKeyAuthMiddleware; StateMiddleware state;
        handler_of e].
Proof. destruct e; reflexivity. Qed.

(** ** The filter *)

Lemma auth_pass next c w :
  gin.GetHeader c "Authorization" = "Bearer " +:+ Getenv w "API_KEY" ->
  APIKeyAuthMiddleware next c w = next c w.
Proof.
  intros Hh. unfold APIKeyAuthMiddleware. rewrite Hh.
  rewrite HasPrefix_app, TrimPrefix_app, String.eqb_refl. reflexivity.
Qed.

Lemma auth_reject next c w :
  gin.GetHeader c "Authorization" <> "Bearer " +:+ Getenv w "API_KEY" ->
  exists msg,
    APIKeyAuthMiddleware next c w =
    gin.Returned (gin.Abort (gin.JSON c StatusUnauthorized [("error", msg)])) w.
Proof.
  intros Hh. unfold APIKeyAuthMiddleware.
  destruct (String.eqb _ "" || _) eqn:Hscheme; [eauto|].
  apply orb_false_elim in Hscheme as [_ Hp].
  apply negb_false_iff, HasPrefix_inv in Hp as [v Hv].
  rewrite Hv, TrimPrefix_app.
  destruct (String.eqb_spec v (Getenv w "API_KEY")) as [->|Hne]; [congruence|].
  simpl. eauto.
Qed.

(** A request the filter refuses is answered 401 and leaves the world as
    it was. *)
Lemma ServeHTTP_refused state e r w :
  targets r e -> ~ authorized w r ->
  exists msg,
    gin.ServeHTTP (router state) r w =
    Some (gin.mkResponse (Some StatusUnauthorized) [[("error", msg)]], w).
Proof.
  intros [Hm Hp] Hna. unfold gin.ServeHTTP. rewrite Hm, Hp, route_of.
  unfold gin.Next.
  rewrite loop_run by reflexivity. unfold gin.Logger at 1. cbv beta.
  rewrite loop_run by reflexivity. unfold gin.Recovery at 1. cbv beta.
  rewrite loop_run by reflexivity.
  match goal with
  | |- context [APIKeyAuthMiddleware ?n ?c w] =>
      destruct (auth_reject n c w Hna) as [msg ->]
  end.
  exists msg.
  repeat (rewrite loop_past by (simpl; unfold gin.abortIndex; lia)).
  reflexivity.
Qed.

(** Past the filter, the chain does what its last handler does; a panic
    of the handler is turned into a 500 by [gin.Recovery]. *)
Lemma Next_chain (h : gin.HandlerFunc (World PS)) state r w :
  authorized w r ->
  (forall c1 w1,
      h last_next (handler_context state r) w = gin.Returned c1 w1 ->
      4 <= gin.index c1) ->
  exists c,
    gin.Next [gin.Logger; gin.Recovery; APIKeyAuthMiddleware;
              StateMiddleware state; h] (gin.reset r) w =
    match h last_next (handler_context state r) w with
    | gin.Returned _ w1 => gin.Returned c w1
    | gin.Panicked _ _ w1 => gin.Returned c w1
    end /\
    gin.Writer c =
    match h last_next (handler_context state r) w with
    | gin.Returned c1 _ => gin.Writer c1
    | gin.Panicked _ c1 _ =>
        gin.Writer (gin.AbortWithStatus c1 StatusInternalServerError)
    end.
Proof.
  intros Hauth Hadv.
  unfold gin.Next.
  rewrite loop_run by reflexivity. unfold gin.Logger at 1. cbv beta.
  rewrite loop_run by reflexivity. unfold gin.Recovery at 1. cbv beta.
  rewrite loop_run by reflexivity. rewrite auth_pass by exact Hauth.
  rewrite loop_run by reflexivity. unfold StateMiddleware at 1. cbv beta zeta.
  rewrite loop_run by reflexivity.
  match goal with
  | |- context [h ?n ?c w] =>
      change (h n c w) with (h last_next (handler_context state r) w)
  end.
  destruct (h last_next (handler_context state r) w) as [c1 w1|v c1 w1] eqn:HX.
  - specialize (Hadv _ _ eq_refl).
    repeat (rewrite loop_past by (simpl; lia)).
    eexists. split; reflexivity.
  - repeat (rewrite loop_past by (simpl; unfold gin.abortIndex; lia)).
    eexists. split; reflexivity.
Qed.

(** ** The route handlers *)

Lemma get_MsgClient_ok c w state st :
  gin.Keys c !! "state" = Some (gin.PtrAppState state) ->
  heap w !! state = Some st ->
  get_MsgClient c w = inl (MsgClient st).
Proof.
  intros Hk Hh. unfold get_MsgClient, gin.Get. rewrite Hk. simpl. by rewrite Hh.
Qed.

Lemma handler_context_Keys state r :
  gin.Keys (handler_context state r) !! "state" = Some (gin.PtrAppState state).
Proof. unfold handler_context. simpl. apply lookup_insert_eq. Qed.

Lemma errors_string_concat errors :
  errors_string errors = concat_strings (map entry_text errors).
Proof. unfold errors_string. apply (fold_left_append entry_text errors ""). Qed.

Ltac enter_handler state st Hkeys Hheap :=
  cbn [gin.MustBindWith snd fst];
  (erewrite (get_MsgClient_ok _ _ state st) by (exact Hkeys || exact Hheap));
  unfold Send, SubscribeToTopic_call, UnsubscribeFromTopic_call, provider_call;
  cbn [env heap fcm calls logs].

Ltac leave_handler :=
  unfold log_Info, log_Error, log_append;
  cbn [fst snd env heap fcm calls logs];
  rewrite <- ?app_assoc;
  eexists _, _; split; [reflexivity|];
  split; [cbn; unfold gin.abortIndex; lia | reflexivity].

(** What each handler does once the state is in the context: one provider
    call, and a response that depends on the binding error and on the
    provider's reply only. *)
Lemma handler_authorized e state st r w :
  heap w !! state = Some st ->
  let call := call_for e r (MsgClient st) in
  let rep := provider_reply call (fcm w) in
  exists c1 entries,
    handler_of e last_next (handler_context state r) w =
    gin.Returned c1 (mkWorld (env w) (heap w) (snd rep) (calls w ++ [call])
                             (logs w ++ entries)) /\
    4 <= gin.index c1 /\
    respond (gin.WriteHeaderNow (gin.Writer c1)) =
    response_for e (bind_error e r) (fst rep).
Proof.
  intros Hheap call rep.
  pose proof (handler_context_Keys state r) as Hkeys.
  subst call rep.
  destruct e; unfold handler_of, call_for, bind_error, provider_reply.
  - unfold publishDryRun, token_message.
    unfold gin.Bind; change (gin.Request_ (handler_context state r)) with r.
    destruct (ShouldBind_PublishInput r) as [p [berr|]];
      enter_handler state st Hkeys Hheap;
      destruct (Client_Send _ _ _) as [[response|err] ps];
      leave_handler.
  - unfold BroadcastMsg, topic_message.
    unfold gin.Bind; change (gin.Request_ (handler_context state r)) with r.
    destruct (ShouldBind_BroadCastInput r) as [b [berr|]];
      enter_handler state st Hkeys Hheap;
      destruct (Client_Send _ _ _) as [[response|err] ps];
      leave_handler.
  - unfold SubscribeToTopic.
    unfold gin.Bind; change (gin.Request_ (handler_context state r)) with r.
    destruct (ShouldBind_SubscribeInput r) as [s [berr|]];
      enter_handler state st Hkeys Hheap;
      destruct (Client_SubscribeToTopic _ _ _ _) as [[response|err] ps];
      unfold response_for, reply_body, reply_status; cbn [fst snd];
      rewrite ?errors_string_concat;
      try destruct (messaging.TopicManagementResponse.FailureCount response =? 0);
      leave_handler.
  - unfold UnsubscribeFromTopic.
    unfold gin.Bind; change (gin.Request_ (handler_context state r)) with r.
    destruct (ShouldBind_SubscribeInput r) as [s [berr|]];
      enter_handler state st Hkeys Hheap;
      destruct (Client_UnsubscribeFromTopic _ _ _ _) as [[response|err] ps];
      unfold response_for, reply_body, reply_status; cbn [fst snd];
      rewrite ?errors_string_concat;
      try destruct (messaging.TopicManagementResponse.FailureCount response =? 0);
      leave_handler.
Qed.

(** An authorized request on a route: exactly one provider call, the one
    the request stands for, and the response [response_for] describes.
    Neither the environment nor the heap changes. *)
Lemma ServeHTTP_authorized e state st r w :
  targets r e -> authorized w r -> heap w !! state = Some st ->
  let call := call_for e r (MsgClient st) in
  let rep := provider_reply call (fcm w) in
  exists entries,
    gin.ServeHTTP (router state) r w =
    Some (response_for e (bind_error e r) (fst rep),
          mkWorld (env w) (heap w) (snd rep) (calls w ++ [call])
                  (logs w ++ entries)).
Proof.
  intros [Hm Hp] Hauth Hheap call rep.
  destruct (handler_authorized e state st r w Hheap)
    as (c1 & entries & Hh & Hidx & Hresp).
  destruct (Next_chain (handler_of e) state r w Hauth) as (c & Hnext & Hw).
  { intros c1' w1'. rewrite Hh. intros [= <- _]. exact Hidx. }
  exists entries. unfold gin.ServeHTTP. rewrite Hm, Hp, route_of, Hnext.
  rewrite Hh in Hw |- *. rewrite Hw.
  fold (respond (gin.WriteHeaderNow (gin.Writer c1))).
  by rewrite Hresp.
Qed.

(** ** The claims *)

Lemma authorized_dec w r : {authorized w r} + {~ authorized w r}.
Proof. unfold authorized. apply string_dec. Qed.

Lemma not_authorized w r :
  Header r !! "Authorization" = None \/
  strings.HasPrefix (authorization r) "Bearer " = false \/
  (exists v, authorization r = "Bearer " +:+ v /\ v <> Getenv w "API_KEY") ->
  ~ authorized w r.
Proof.
  unfold authorized. intros [Hmiss|[Hscheme|(v & Hv & Hne)]] Hauth.
  - unfold authorization, Header_Get in Hauth. rewrite Hmiss in Hauth.
    discriminate Hauth.
  - rewrite Hauth, HasPrefix_app in Hscheme. discriminate.
  - rewrite Hv in Hauth. apply (inj (String.app "Bearer ")) in Hauth. contradiction.
Qed.

(** C1.  A POST on any of the four routes whose Authorization header is
    missing, does not start with the Bearer scheme, or carries a bearer
    value other than the configured API_KEY is answered 401 with a JSON
    object holding an [error] member, and the world is left exactly as it
    was: no provider call is made (and nothing is logged). *)
Theorem unauthorized_request_rejected state e r w :
  targets r e ->
  Header r !! "Authorization" = None \/
  strings.HasPrefix (authorization r) "Bearer " = false \/
  (exists v, authorization r = "Bearer " +:+ v /\ v <> Getenv w "API_KEY") ->
  exists msg,
    gin.ServeHTTP (router state) r w =
    Some (gin.mkResponse (Some StatusUnauthorized) [[("error", msg)]], w).
Proof.
  intros Ht Hbad. apply (ServeHTTP_refused state e r w Ht).
  by apply not_authorized.
Qed.

(** C2, amended.  For an authorized /subscribe or /unsubscribe request
    whose body binds without error and whose provider batch call returns
    without a transport error: a failure count of zero is answered 202 with
    no body; any other failure count (in particular N > 0) is answered 502
    with an [errors] member made of the label followed by the text of
    every entry of the reply's error list, in the order of that list, with
    nothing between two entries. *)
Theorem topic_batch_response state st e r w resp :
  e = Subscribe \/ e = Unsubscribe ->
  targets r e -> authorized w r -> heap w !! state = Some st ->
  bind_error e r = None ->
  fst (provider_reply (call_for e r (MsgClient st)) (fcm w)) = ReplyTopic (inl resp) ->
  exists w',
    gin.ServeHTTP (router state) r w =
    Some (if messaging.TopicManagementResponse.FailureCount resp =? 0
          then gin.mkResponse (Some StatusAccepted) []
          else gin.mkResponse (Some StatusBadGateway)
                 [[("errors",
                    "errors while subscribing to topic: " +:+
                    concat_strings
                      (map entry_text
                           (messaging.TopicManagementResponse.Errors resp)))]],
          w').
Proof.
  intros _ Ht Hauth Hheap Hbind Hrep.
  destruct (ServeHTTP_authorized e state st r w Ht Hauth Hheap) as [entries ->].
  rewrite Hbind, Hrep. eexists. unfold response_for, reply_status, reply_body.
  by destruct (_ =? 0).
Qed.

(** C3, amended.  When the body of an authorized request does not decode
    and the input struct is left zero-valued, the handler drops the error
    and goes on with the zero-valued struct (the provider is called once,
    with the call built from it); but the decoding step has already
    committed status 400, and 400 is the status of the response whatever
    the handler asks for afterwards. *)
Theorem failed_bind_answers_400 state st e r w :
  targets r e -> authorized w r -> heap w !! state = Some st ->
  bound_zero e r ->
  exists body w',
    gin.ServeHTTP (router state) r w =
    Some (gin.mkResponse (Some StatusBadRequest) body, w') /\
    calls w' = calls w ++ [zero_call e (MsgClient st)].
Proof.
  intros Ht Hauth Hheap Hzero.
  destruct (ServeHTTP_authorized e state st r w Ht Hauth Hheap) as [entries ->].
  eexists _, _. split.
  - unfold response_for.
    assert (exists err, bind_error e r = Some err) as [err ->]; [|reflexivity].
    destruct e; destruct Hzero as [err Hz]; exists err; simpl; by rewrite Hz.
  - simpl. do 2 f_equal.
    destruct e; destruct Hzero as [err Hz]; simpl; by rewrite Hz.
Qed.

(** C4.  An authorized /publish request makes exactly one provider call,
    [Send] of the message whose Token is the bound [to] field and whose
    notification carries the bound title and body; an authorized
    /broadcast request does the same with the bound [topic] in the Topic
    field instead. *)
Theorem message_passed_to_provider state st r w :
  authorized w r -> heap w !! state = Some st ->
  (targets r Publish ->
   let p := fst (ShouldBind_PublishInput r) in
   exists resp w',
     gin.ServeHTTP (router state) r w = Some (resp, w') /\
     calls w' = calls w ++
       [messaging.CallSend (MsgClient st)
          (messaging.Message.mk
             (Some (messaging.Notification.mk
                      (Notification.Title (PublishInput.Notification p))
                      (Notification.Body (PublishInput.Notification p)) ""))
             (PublishInput.Token p) "" "")]) /\
  (targets r Broadcast ->
   let b := fst (ShouldBind_BroadCastInput r) in
   exists resp w',
     gin.ServeHTTP (router state) r w = Some (resp, w') /\
     calls w' = calls w ++
       [messaging.CallSend (MsgClient st)
          (messaging.Message.mk
             (Some (messaging.Notification.mk
                      (Notification.Title (BroadCastInput.Notification b))
                      (Notification.Body (BroadCastInput.Notification b)) ""))
             "" (BroadCastInput.Topic b) "")]).
Proof.
  intros Hauth Hheap. split; intros Ht.
  - destruct (ServeHTTP_authorized Publish state st r w Ht Hauth Hheap) as [entries ->].
    intros p. eexists _, _. split; reflexivity.
  - destruct (ServeHTTP_authorized Broadcast state st r w Ht Hauth Hheap) as [entries ->].
    intros b. eexists _, _. split; reflexivity.
Qed.

(** C5, amended.  An authorized /publish or /broadcast request whose body
    binds without error and whose provider send succeeds is answered 202
    with an empty body. *)
Theorem send_success_accepted state st e r w id :
  e = Publish \/ e = Broadcast ->
  targets r e -> authorized w r -> heap w !! state = Some st ->
  bind_error e r = None ->
  fst (provider_reply (call_for e r (MsgClient st)) (fcm w)) = ReplySend (inl id) ->
  exists w',
    gin.ServeHTTP (router state) r w =
    Some (gin.mkResponse (Some StatusAccepted) [], w').
Proof.
  intros _ Ht Hauth Hheap Hbind Hrep.
  destruct (ServeHTTP_authorized e state st r w Ht Hauth Hheap) as [entries ->].
  rewrite Hbind, Hrep. by eexists.
Qed.

(** C6, amended.  An authorized request on any route whose body binds
    without error and whose provider call returns an error is answered 502
    with an [error] member ending in the provider's error text; the
    provider was called once, not again. *)
Theorem provider_error_bad_gateway state st e r w err :
  targets r e -> authorized w r -> heap w !! state = Some st ->
  bind_error e r = None ->
  reply_error (fst (provider_reply (call_for e r (MsgClient st)) (fcm w))) = Some err ->
  exists w',
    gin.ServeHTTP (router state) r w =
    Some (gin.mkResponse (Some StatusBadGateway)
                         [[("error", error_label e +:+ err)]], w') /\
    calls w' = calls w ++ [call_for e r (MsgClient st)].
Proof.
  intros Ht Hauth Hheap Hbind Hrep.
  destruct (ServeHTTP_authorized e state st r w Ht Hauth Hheap) as [entries ->].
  rewrite Hbind.
  assert (response_for e None
            (fst (provider_reply (call_for e r (MsgClient st)) (fcm w))) =
          gin.mkResponse (Some StatusBadGateway)
                         [[("error", error_label e +:+ err)]]) as ->.
  { destruct (fst (provider_reply _ _)) as [[?|?]|[?|?]]; by simplify_eq/=. }
  eexists. split; reflexivity.
Qed.

(** C7.  Serving the same /subscribe request a second time, right after
    the first, gives the same response as the first time whenever the
    provider gives the same reply.  More generally the gateway keeps
    nothing between requests that the response depends on: in any two
    worlds that authorize the request, equal provider replies give equal
    responses. *)
Theorem subscribe_twice_same_outcome state st r w :
  targets r Subscribe -> heap w !! state = Some st ->
  (exists resp w1,
     gin.ServeHTTP (router state) r w = Some (resp, w1) /\
     (fst (provider_reply (call_for Subscribe r (MsgClient st)) (fcm w1)) =
      fst (provider_reply (call_for Subscribe r (MsgClient st)) (fcm w)) ->
      exists w2, gin.ServeHTTP (router state) r w1 = Some (resp, w2))) /\
  (forall w' st',
     heap w' !! state = Some st' ->
     authorized w r -> authorized w' r ->
     fst (provider_reply (call_for Subscribe r (MsgClient st')) (fcm w')) =
     fst (provider_reply (call_for Subscribe r (MsgClient st)) (fcm w)) ->
     fst <$> gin.ServeHTTP (router state) r w' =
     fst <$> gin.ServeHTTP (router state) r w).
Proof.
  intros Ht Hheap. split.
  - destruct (authorized_dec w r) as [Hauth|Hna].
    + destruct (ServeHTTP_authorized Subscribe state st r w Ht Hauth Hheap)
        as [entries Hs].
      eexists _, _. split; [exact Hs|]. intros Hsame.
      edestruct (ServeHTTP_authorized Subscribe state st r) as [entries' ->];
        [exact Ht | exact Hauth | exact Hheap |].
      cbn [fcm] in Hsame |- *. rewrite Hsame. by eexists.
    + destruct (ServeHTTP_refused state Subscribe r w Ht Hna) as [msg Hs].
      eexists _, _. split; [exact Hs|]. intros _. by eexists.
  - intros w' st' Hheap' Hauth Hauth' Hsame.
    destruct (ServeHTTP_authorized Subscribe state st r w Ht Hauth Hheap)
      as [entries ->].
    destruct (ServeHTTP_authorized Subscribe state st' r w' Ht Hauth' Hheap')
      as [entries' ->].
    cbn [fmap option_fmap option_map fst]. by rewrite Hsame.
Qed.

Lemma getValue_In (ts : list (string * string * list (gin.HandlerFunc (World PS))))
      method path hs :
  gin.getValue ts method path = Some hs -> In (method, path, hs) ts.
Proof.
  induction ts as [|[[m p] hs'] tl IH]; simpl; [discriminate|].
  destruct (String.eqb_spec m method) as [->|]; simpl; [|by right; apply IH].
  destruct (String.eqb_spec p path) as [->|]; [|by right; apply IH].
  intros [= ->]. by left.
Qed.

Lemma route_inv state method path hs :
  gin.getValue (gin.trees (router state)) method path = Some hs ->
  exists e, method = "POST" /\ path = path_of e.
Proof.
  intros Hin%getValue_In.
  destruct Hin as [Hin|[Hin|[Hin|[Hin|[]]]]]; injection Hin as <- <- _;
    [by exists Publish | by exists Broadcast | by exists Subscribe
    | by exists Unsubscribe].
Qed.

(** Serving a request changes neither the environment nor the heap, and
    every provider call it adds goes through the client of the state. *)
Lemma ServeHTTP_preserves state st r w resp w' :
  heap w !! state = Some st ->
  gin.ServeHTTP (router state) r w = Some (resp, w') ->
  env w' = env w /\ heap w' = heap w /\
  exists new, calls w' = calls w ++ new /\
              Forall (fun call => client_of call = MsgClient st) new.
Proof.
  intros Hheap Hs.
  assert (exists e, targets r e) as [e Ht].
  { unfold gin.ServeHTTP in Hs.
    destruct (gin.getValue _ _ _) as [hs|] eqn:Hroute; [|discriminate].
    apply route_inv in Hroute as (e & ? & ?). by exists e. }
  destruct (authorized_dec w r) as [Hauth|Hna].
  - destruct (ServeHTTP_authorized e state st r w Ht Hauth Hheap) as [entries He].
    rewrite He in Hs. injection Hs as <- <-. cbn [env heap calls].
    split; [reflexivity|]. split; [reflexivity|].
    eexists. split; [reflexivity|]. constructor; [|constructor].
    by destruct e.
  - destruct (ServeHTTP_refused state e r w Ht Hna) as [msg He].
    rewrite He in Hs. injection Hs as <- <-.
    split; [reflexivity|]. split; [reflexivity|].
    exists []. split; [by rewrite app_nil_r | constructor].
Qed.

Lemma Run_preserves state st requests w :
  heap w !! state = Some st ->
  let w' := snd (Run (router state) requests w) in
  env w' = env w /\ heap w' = heap w /\
  exists new, calls w' = calls w ++ new /\
              Forall (fun call => client_of call = MsgClient st) new.
Proof.
  revert w. induction requests as [|r rest IH]; intros w Hheap; simpl.
  - split; [reflexivity|]. split; [reflexivity|].
    exists []. split; [by rewrite app_nil_r | constructor].
  - destruct (gin.ServeHTTP (router state) r w) as [[resp w1]|] eqn:Hs.
    + destruct (ServeHTTP_preserves _ _ _ _ _ _ Hheap Hs) as (He & Hh & new & Hc & Hall).
      assert (heap w1 !! state = Some st) as Hheap1 by by rewrite Hh.
      specialize (IH w1 Hheap1). simpl in IH.
      destruct (Run (router state) rest w1) as [out w2]. simpl in *.
      destruct IH as (He2 & Hh2 & new2 & Hc2 & Hall2).
      split; [congruence|]. split; [congruence|].
      exists (new ++ new2). split.
      * by rewrite Hc2, Hc, app_assoc.
      * by apply Forall_app.
    + specialize (IH w Hheap). simpl in IH.
      by destruct (Run (router state) rest w) as [out w2].
Qed.

(** C8.  When [main] reaches [router.Run] it has allocated exactly one
    [AppState] cell, holding the client [app.Messaging] returned, and the
    router it serves is built around that cell.  Whatever requests are
    then served, the heap stays as [main] left it, and every provider call
    made goes through that client. *)
Theorem app_state_never_mutated (s : Startup) (w0 : World PS)
        (engine : gin.Engine (World PS)) state w :
  main s w0 = Serving engine state w ->
  exists client,
    engine = router state /\
    heap w0 !! state = None /\
    heap w = <[state := mkAppState client]> (heap w0) /\
    forall requests,
      let w' := snd (Run engine requests w) in
      heap w' = heap w /\
      exists new, calls w' = calls w ++ new /\
                  Forall (fun call => client_of call = client) new.
Proof.
  unfold main. intros Hmain.
  destruct (dotenv s) as [vars|envErr]; [|discriminate].
  destruct (NewApp s) as [err|]; [discriminate|].
  destruct (Messaging_ s) as [client|err]; [|discriminate].
  unfold new_AppState, log_Info, log_append in Hmain. cbn [heap env fcm calls logs] in Hmain.
  injection Hmain as <- <- <-.
  exists client. split; [reflexivity|]. split.
  { apply not_elem_of_dom, is_fresh. }
  split; [reflexivity|]. intros requests.
  edestruct (Run_preserves (fresh (dom (heap w0))) (mkAppState client) requests)
    as (_ & Hh & Hc); [|split; [exact Hh | exact Hc]].
  cbn [heap]. apply lookup_insert_eq.
Qed.

(** The unsubscribe handler on a reply that reports failures. *)
Lemma Unsubscribe_partial_failure state st r w resp :
  heap w !! state = Some st ->
  fst (provider_reply (call_for Unsubscribe r (MsgClient st)) (fcm w)) =
    ReplyTopic (inl resp) ->
  messaging.TopicManagementResponse.FailureCount resp <> 0 ->
  exists c1 w1,
    UnsubscribeFromTopic last_next (handler_context state r) w =
      gin.Returned c1 w1 /\
    4 <= gin.index c1 /\
    respond (gin.WriteHeaderNow (gin.Writer c1)) =
      gin.mkResponse
        (Some (match bind_error Unsubscribe r with
               | Some _ => StatusBadRequest
               | None => StatusBadGateway
               end))
        [[("errors",
           "errors while subscribing to topic: " +:+
           errors_string (messaging.TopicManagementResponse.Errors resp))]] /\
    logs w1 =
      logs w ++
      [log.mkEntry log.ErrorLevel "error while subscribing to topic"
         [("errors",
           log.VString
             (errors_string (messaging.TopicManagementResponse.Errors resp)))]].
Proof.
  intros Hheap Hrep Hfail.
  pose proof (handler_context_Keys state r) as Hkeys.
  apply Z.eqb_neq in Hfail.
  unfold call_for, provider_reply in Hrep. cbn [fst] in Hrep.
  injection Hrep as Hrep.
  unfold UnsubscribeFromTopic, bind_error.
  unfold gin.Bind; change (gin.Request_ (handler_context state r)) with r.
  destruct (ShouldBind_SubscribeInput r) as [s [berr|]];
    cbn [gin.MustBindWith snd fst] in *;
    (erewrite (get_MsgClient_ok _ _ state st) by (exact Hkeys || exact Hheap));
    unfold UnsubscribeFromTopic_call, provider_call;
    rewrite Hrep; cbn [fst snd]; rewrite Hfail; cbn [negb];
    eexists _, _; (split; [reflexivity|]);
    (split; [cbn; unfold gin.abortIndex; lia|]);
    split; reflexivity.
Qed.

(** C9.  When the provider answers an authorized /unsubscribe request
    with a non-zero failure count, the [errors] member of the response
    starts with "errors while subscribing to topic" and the line logged is
    "error while subscribing to topic": both name the other operation.
    The status is 502 when the body bound without error. *)
Theorem unsubscribe_labelled_subscribing state st r w resp :
  targets r Unsubscribe -> authorized w r -> heap w !! state = Some st ->
  fst (provider_reply (call_for Unsubscribe r (MsgClient st)) (fcm w)) =
    ReplyTopic (inl resp) ->
  messaging.TopicManagementResponse.FailureCount resp <> 0 ->
  exists status rest w',
    gin.ServeHTTP (router state) r w =
    Some (gin.mkResponse (Some status)
            [[("errors", "errors while subscribing to topic" +:+ rest)]], w') /\
    (bind_error Unsubscribe r = None -> status = StatusBadGateway) /\
    exists sb,
      logs w' =
      logs w ++ [log.mkEntry log.ErrorLevel "error while subscribing to topic"
                             [("errors", log.VString sb)]].
Proof.
  intros [Hm Hp] Hauth Hheap Hrep Hfail.
  destruct (Unsubscribe_partial_failure state st r w resp Hheap Hrep Hfail)
    as (c1 & w1 & Hh & Hidx & Hresp & Hlog).
  destruct (Next_chain UnsubscribeFromTopic state r w Hauth) as (c & Hnext & Hw).
  { intros c1' w1'. rewrite Hh. intros [= <- _]. exact Hidx. }
  unfold gin.ServeHTTP.
  rewrite Hm, Hp, (route_of state Unsubscribe). cbn [handler_of].
  rewrite Hnext. rewrite Hh in Hw |- *. rewrite Hw.
  fold (respond (gin.WriteHeaderNow (gin.Writer c1))). rewrite Hresp.
  eexists _, (": " +:+ _), w1. split; [reflexivity|]. split.
  - by intros ->.
  - eexists. exact Hlog.
Qed.

(** C10.  With API_KEY unset or empty in the environment at the time of
    the request, a request whose Authorization header is exactly the
    Bearer scheme followed by nothing passes the filter and reaches its
    handler (the provider is called).  And the key is the one the
    environment holds when the request is served: in every world the
    request is refused with 401 exactly when its header differs from the
    Bearer scheme followed by that world's API_KEY. *)
Theorem empty_key_admits_empty_bearer state st e r w :
  targets r e -> heap w !! state = Some st ->
  (env w !! "API_KEY" = None \/ env w !! "API_KEY" = Some "" ->
   authorization r = "Bearer " ->
   exists resp w',
     gin.ServeHTTP (router state) r w = Some (resp, w') /\
     calls w' = calls w ++ [call_for e r (MsgClient st)]) /\
  (exists resp w',
     gin.ServeHTTP (router state) r w = Some (resp, w') /\
     (gin.StatusCode resp = Some StatusUnauthorized <->
      authorization r <> "Bearer " +:+ Getenv w "API_KEY")).
Proof.
  intros Ht Hheap. split.
  - intros Hkey Hhdr.
    assert (authorized w r) as Hauth.
    { unfold authorized, Getenv. rewrite Hhdr. by destruct Hkey as [-> | ->]. }
    destruct (ServeHTTP_authorized e state st r w Ht Hauth Hheap) as [entries ->].
    eexists _, _. split; reflexivity.
  - destruct (authorized_dec w r) as [Hauth|Hna].
    + destruct (ServeHTTP_authorized e state st r w Ht Hauth Hheap) as [entries ->].
      eexists _, _. split; [reflexivity|]. split; [|done].
      unfold response_for. simpl. intros [= Hst]. exfalso.
      destruct (bind_error e r); [discriminate|].
      destruct (fst (provider_reply _ _)) as [[?|?]|[resp|?]]; simpl in Hst; try discriminate.
      destruct (_ =? 0); discriminate.
    + destruct (ServeHTTP_refused state e r w Ht Hna) as [msg ->].
      eexists _, _. split; [reflexivity|]. split; [done|]. reflexivity.
Qed.
(** ** Beyond the claims *)

(** *** The route table *)

Lemma endpoint_of_targets r e : endpoint_of r = Some e <-> targets r e.
Proof.
  unfold endpoint_of, targets. split.
  - destruct (String.eqb_spec (Method r) "POST") as [->|]; [|discriminate].
    destruct (String.eqb_spec (Path r) "/publish") as [->|];
      [by intros [= <-]|].
    destruct (String.eqb_spec (Path r) "/broadcast") as [->|];
      [by intros [= <-]|].
    destruct (String.eqb_spec (Path r) "/subscribe") as [->|];
      [by intros [= <-]|].
    destruct (String.eqb_spec (Path r) "/unsubscribe") as [->|];
      [by intros [= <-]|].
    discriminate.
  - intros [-> ->]. by destruct e.
Qed.

(** X1.  The router [main] builds routes exactly the POST requests on the
    four paths, each to the chain logger, recovery, filter, injector,
    handler, in that order; any other method or path matches no route. *)
Theorem routes_exact state r :
  gin.getValue (gin.trees (router state)) (Method r) (Path r) =
  chain_of state <$> endpoint_of r.
Proof.
  destruct (endpoint_of r) as [e|] eqn:He.
  - apply endpoint_of_targets in He as [-> ->]. apply route_of.
  - destruct (gin.getValue _ _ _) as [hs|] eqn:Hroute; [|reflexivity].
    apply route_inv in Hroute as (e & Hm & Hp).
    assert (endpoint_of r = Some e) as Hsome by by apply endpoint_of_targets.
    congruence.
Qed.

(** *** The filter *)

(** The whole chain on a request the filter answers with [msg]. *)
Lemma ServeHTTP_refused_with state e r w msg :
  targets r e ->
  (forall next c,
      gin.GetHeader c "Authorization" = authorization r ->
      APIKeyAuthMiddleware next c w =
      gin.Returned (gin.Abort (gin.JSON c StatusUnauthorized [("error", msg)])) w) ->
  gin.ServeHTTP (router state) r w =
  Some (gin.mkResponse (Some StatusUnauthorized) [[("error", msg)]], w).
Proof.
  intros [Hm Hp] Hrej. unfold gin.ServeHTTP. rewrite Hm, Hp, route_of.
  unfold gin.Next.
  rewrite loop_run by reflexivity. unfold gin.Logger at 1. cbv beta.
  rewrite loop_run by reflexivity. unfold gin.Recovery at 1. cbv beta.
  rewrite loop_run by reflexivity.
  rewrite Hrej by reflexivity.
  repeat (rewrite loop_past by (simpl; unfold gin.abortIndex; lia)).
  reflexivity.
Qed.

(** X2.  The two refusals of the filter tell their cause apart: a header
    that does not start with the Bearer scheme (a missing or empty header
    included) is answered "Missing or invalid token"; a Bearer header with
    another value than the key is answered "Invalid API Key". *)
Theorem filter_messages state e r w :
  targets r e ->
  (strings.HasPrefix (authorization r) "Bearer " = false ->
   gin.ServeHTTP (router state) r w =
   Some (gin.mkResponse (Some StatusUnauthorized)
           [[("error", "Unauthorized: Missing or invalid token")]], w)) /\
  (forall v,
      authorization r = "Bearer " +:+ v -> v <> Getenv w "API_KEY" ->
      gin.ServeHTTP (router state) r w =
      Some (gin.mkResponse (Some StatusUnauthorized)
              [[("error", "Unauthorized: Invalid API Key")]], w)).
Proof.
  intros Ht. split.
  - intros Hscheme. apply (ServeHTTP_refused_with state e r w _ Ht).
    intros next c Hc. unfold APIKeyAuthMiddleware. rewrite Hc, Hscheme.
    by rewrite orb_true_r.
  - intros v Hv Hne. apply (ServeHTTP_refused_with state e r w _ Ht).
    intros next c Hc. unfold APIKeyAuthMiddleware. rewrite Hc, Hv.
    rewrite HasPrefix_app, TrimPrefix_app.
    destruct (String.eqb_spec v (Getenv w "API_KEY")); [contradiction|].
    reflexivity.
Qed.

(** *** What a response tells the caller *)

Lemma reply_status_ok rep :
  reply_status rep = if reply_ok rep then StatusAccepted else StatusBadGateway.
Proof. by destruct rep as [[?|?]|[?|?]]. Qed.

Lemma reply_body_ok e rep : reply_ok rep = true -> reply_body e rep = [].
Proof.
  destruct rep as [[?|?]|[?|?]]; simpl; try done. by intros ->.
Qed.

(** X3.  Every request on a route is answered with one of four statuses,
    and the status tells what happened: 401 when the filter refused it;
    400 when it passed the filter and its body did not bind; 202, with an
    empty body, when it bound and the provider reported success; 502 when
    it bound and the provider reported an error or a failure.  No request
    is answered 500: the handlers never panic behind the injector. *)
Theorem status_classification state st r w resp w' :
  heap w !! state = Some st ->
  gin.ServeHTTP (router state) r w = Some (resp, w') ->
  exists e,
    targets r e /\
    let rep := fst (provider_reply (call_for e r (MsgClient st)) (fcm w)) in
    (~ authorized w r /\
     gin.StatusCode resp = Some StatusUnauthorized) \/
    (authorized w r /\ bind_error e r <> None /\
     gin.StatusCode resp = Some StatusBadRequest) \/
    (authorized w r /\ bind_error e r = None /\ reply_ok rep = true /\
     gin.StatusCode resp = Some StatusAccepted /\ gin.Body resp = []) \/
    (authorized w r /\ bind_error e r = None /\ reply_ok rep = false /\
     gin.StatusCode resp = Some StatusBadGateway).
Proof.
  intros Hheap Hs.
  assert (exists e, targets r e) as [e Ht].
  { unfold gin.ServeHTTP in Hs.
    destruct (gin.getValue _ _ _) as [hs|] eqn:Hroute; [|discriminate].
    apply route_inv in Hroute as (e & ? & ?). by exists e. }
  exists e. split; [exact Ht|]. intros rep.
  destruct (authorized_dec w r) as [Hauth|Hna].
  - right. destruct (ServeHTTP_authorized e state st r w Ht Hauth Hheap)
      as [entries He].
    rewrite He in Hs. injection Hs as <- _. fold rep.
    unfold response_for. cbn [gin.StatusCode gin.Body].
    destruct (bind_error e r) as [err|]; [by left|]. right.
    rewrite reply_status_ok.
    destruct (reply_ok rep) eqn:Hok; [left|right]; repeat split; try done.
    by apply reply_body_ok.
  - left. destruct (ServeHTTP_refused state e r w Ht Hna) as [msg He].
    rewrite He in Hs. injection Hs as <- _. by split.
Qed.

(** X4.  A status 400 does not mean the request was dropped.  Whatever the
    binding step assigned before it failed, the handler goes on: the
    provider is called once with the call built from the partly bound
    input, and the body of the 400 response is the one the handler writes
    for the provider's reply (empty when the provider reported success). *)
Theorem failed_bind_still_forwards state st e r w err :
  targets r e -> authorized w r -> heap w !! state = Some st ->
  bind_error e r = Some err ->
  exists w',
    gin.ServeHTTP (router state) r w =
    Some (gin.mkResponse (Some StatusBadRequest)
            (reply_body e (fst (provider_reply (call_for e r (MsgClient st)) (fcm w)))),
          w') /\
    calls w' = calls w ++ [call_for e r (MsgClient st)] /\
    fcm w' = snd (provider_reply (call_for e r (MsgClient st)) (fcm w)).
Proof.
  intros Ht Hauth Hheap Hbind.
  destruct (ServeHTTP_authorized e state st r w Ht Hauth Hheap) as [entries ->].
  rewrite Hbind. eexists. split; [reflexivity|]. by split.
Qed.

(** X5.  An authorized /subscribe request makes exactly one provider call,
    the batch subscription of the bound tokens to the bound topic, with the
    token list as bound (order and duplicates kept); an authorized
    /unsubscribe request makes exactly the matching unsubscription.
    Neither route ever calls the other operation or [Send]. *)
Theorem topic_request_forwarded state st r w :
  authorized w r -> heap w !! state = Some st ->
  let s := fst (ShouldBind_SubscribeInput r) in
  (targets r Subscribe ->
   exists resp w',
     gin.ServeHTTP (router state) r w = Some (resp, w') /\
     calls w' = calls w ++
       [messaging.CallSubscribeToTopic (MsgClient st)
          (SubscribeInput.Tokens s) (SubscribeInput.Topic s)]) /\
  (targets r Unsubscribe ->
   exists resp w',
     gin.ServeHTTP (router state) r w = Some (resp, w') /\
     calls w' = calls w ++
       [messaging.CallUnsubscribeFromTopic (MsgClient st)
          (SubscribeInput.Tokens s) (SubscribeInput.Topic s)]).
Proof.
  intros Hauth Hheap s. split; intros Ht.
  - destruct (ServeHTTP_authorized Subscribe state st r w Ht Hauth Hheap)
      as [entries ->].
    eexists _, _. split; reflexivity.
  - destruct (ServeHTTP_authorized Unsubscribe state st r w Ht Hauth Hheap)
      as [entries ->].
    eexists _, _. split; reflexivity.
Qed.

(** *** The handlers and the injector *)

Lemma get_MsgClient_missing c w :
  gin.Keys c !! "state" = None \/ gin.Keys c !! "state" = Some gin.Nil \/
  (exists p, gin.Keys c !! "state" = Some (gin.PtrAppState p) /\
             heap w !! p = None) ->
  exists v, get_MsgClient c w = inr v.
Proof.
  unfold get_MsgClient, gin.Get.
  intros [->|[->|(p & -> & Hp)]]; simpl; [eauto..|].
  rewrite Hp. eauto.
Qed.

(** X6.  The handlers rely on the injector.  Entered with a context that
    holds no state (the key is missing, holds nil, or holds a pointer to no
    cell), each of the four handlers panics, and it does so before it
    contacts the provider: no call is made. *)
Theorem handler_without_state_panics e next c w :
  gin.Keys c !! "state" = None \/ gin.Keys c !! "state" = Some gin.Nil \/
  (exists p, gin.Keys c !! "state" = Some (gin.PtrAppState p) /\
             heap w !! p = None) ->
  exists v c' w',
    handler_of e next c w = gin.Panicked v c' w' /\
    calls w' = calls w /\ fcm w' = fcm w.
Proof.
  intros Hmiss.
  destruct e; unfold handler_of.
  - unfold publishDryRun, gin.Bind.
    destruct (ShouldBind_PublishInput (gin.Request_ c)) as [p [berr|]];
      cbn [gin.MustBindWith snd fst];
      match goal with
      | |- context [get_MsgClient ?c' ?w'] =>
          destruct (get_MsgClient_missing c' w' Hmiss) as [v ->]
      end; by eexists _, _, _.
  - unfold BroadcastMsg, gin.Bind.
    destruct (ShouldBind_BroadCastInput (gin.Request_ c)) as [b [berr|]];
      cbn [gin.MustBindWith snd fst];
      match goal with
      | |- context [get_MsgClient ?c' ?w'] =>
          destruct (get_MsgClient_missing c' w' Hmiss) as [v ->]
      end; by eexists _, _, _.
  - unfold SubscribeToTopic, gin.Bind.
    destruct (ShouldBind_SubscribeInput (gin.Request_ c)) as [s [berr|]];
      cbn [gin.MustBindWith snd fst];
      match goal with
      | |- context [get_MsgClient ?c' ?w'] =>
          destruct (get_MsgClient_missing c' w' Hmiss) as [v ->]
      end; by eexists _, _, _.
  - unfold UnsubscribeFromTopic, gin.Bind.
    destruct (ShouldBind_SubscribeInput (gin.Request_ c)) as [s [berr|]];
      cbn [gin.MustBindWith snd fst];
      match goal with
      | |- context [get_MsgClient ?c' ?w'] =>
          destruct (get_MsgClient_missing c' w' Hmiss) as [v ->]
      end; by eexists _, _, _.
Qed.

(** *** The log *)

(** The chain past the filter, in terms of what the handler returns. *)
Lemma ServeHTTP_via_handler e state r w c1 w1 :
  targets r e -> authorized w r ->
  handler_of e last_next (handler_context state r) w = gin.Returned c1 w1 ->
  4 <= gin.index c1 ->
  gin.ServeHTTP (router state) r w =
  Some (respond (gin.WriteHeaderNow (gin.Writer c1)), w1).
Proof.
  intros [Hm Hp] Hauth Hh Hidx.
  destruct (Next_chain (handler_of e) state r w Hauth) as (c & Hnext & Hw).
  { intros c1' w1'. rewrite Hh. intros [= <- _]. exact Hidx. }
  unfold gin.ServeHTTP. rewrite Hm, Hp, route_of, Hnext.
  rewrite Hh in Hw |- *. by rewrite Hw.
Qed.

Ltac leave_logging :=
  unfold log_Info, log_Error, log_append;
  cbn [fst snd env heap fcm calls logs reply_ok];
  rewrite <- ?app_assoc;
  eexists _, _, _; split; [reflexivity|];
  split; [cbn; unfold gin.abortIndex; lia|];
  split; [reflexivity|]; reflexivity.

(** What each handler logs: the publish handler first logs the
    notification; every handler then logs one line for the outcome. *)
Lemma handler_logging e state st r w :
  heap w !! state = Some st ->
  let rep := fst (provider_reply (call_for e r (MsgClient st)) (fcm w)) in
  let n := PublishInput.Notification (fst (ShouldBind_PublishInput r)) in
  exists c1 w1 outcome,
    handler_of e last_next (handler_context state r) w = gin.Returned c1 w1 /\
    4 <= gin.index c1 /\
    logs w1 =
      logs w ++
      match e with
      | Publish =>
          [log.mkEntry log.InfoLevel
             ("notification is " +:+
              fmt_v_Notification
                (messaging.Notification.mk
                   (Notification.Title n) (Notification.Body n) "")) []]
      | _ => []
      end ++ [outcome] /\
    log.level outcome = if reply_ok rep then log.InfoLevel else log.ErrorLevel.
Proof.
  intros Hheap rep n.
  pose proof (handler_context_Keys state r) as Hkeys.
  subst rep n.
  destruct e; unfold handler_of, call_for, provider_reply.
  - unfold publishDryRun, token_message.
    unfold gin.Bind; change (gin.Request_ (handler_context state r)) with r.
    destruct (ShouldBind_PublishInput r) as [p [berr|]];
      enter_handler state st Hkeys Hheap;
      destruct (Client_Send _ _ _) as [[response|err] ps];
      leave_logging.
  - unfold BroadcastMsg, topic_message.
    unfold gin.Bind; change (gin.Request_ (handler_context state r)) with r.
    destruct (ShouldBind_BroadCastInput r) as [b [berr|]];
      enter_handler state st Hkeys Hheap;
      destruct (Client_Send _ _ _) as [[response|err] ps];
      leave_logging.
  - unfold SubscribeToTopic.
    unfold gin.Bind; change (gin.Request_ (handler_context state r)) with r.
    destruct (ShouldBind_SubscribeInput r) as [s [berr|]];
      enter_handler state st Hkeys Hheap;
      destruct (Client_SubscribeToTopic _ _ _ _) as [[response|err] ps];
      cbn [fst snd reply_ok];
      try destruct (messaging.TopicManagementResponse.FailureCount response =? 0);
      leave_logging.
  - unfold UnsubscribeFromTopic.
    unfold gin.Bind; change (gin.Request_ (handler_context state r)) with r.
    destruct (ShouldBind_SubscribeInput r) as [s [berr|]];
      enter_handler state st Hkeys Hheap;
      destruct (Client_UnsubscribeFromTopic _ _ _ _) as [[response|err] ps];
      cbn [fst snd reply_ok];
      try destruct (messaging.TopicManagementResponse.FailureCount response =? 0);
      leave_logging.
Qed.


(** X8.  Every request that passes the filter ends with exactly one log
    line for its outcome, last in the log, at error level when the provider
    reported an error or a failure and at info level when it reported
    success; this holds also when the response is 400.  Only the publish
    route logs a line before it. *)
Theorem log_level_matches_outcome state st e r w :
  targets r e -> authorized w r -> heap w !! state = Some st ->
  let rep := fst (provider_reply (call_for e r (MsgClient st)) (fcm w)) in
  exists resp w' before outcome,
    gin.ServeHTTP (router state) r w = Some (resp, w') /\
    logs w' = logs w ++ before ++ [outcome] /\
    length before = (if e is Publish then 1 else 0)%nat /\
    log.level outcome = if reply_ok rep then log.InfoLevel else log.ErrorLevel.
Proof.
  intros Ht Hauth Hheap rep.
  destruct (handler_logging e state st r w Hheap)
    as (c1 & w1 & outcome & Hh & Hidx & Hlog & Hlevel).
  rewrite (ServeHTTP_via_handler e state r w c1 w1 Ht Hauth Hh Hidx).
  eexists _, _, _, outcome. split; [reflexivity|].
  split; [exact Hlog|]. split; [by destruct e | exact Hlevel].
Qed.

(** *** The aggregated error text *)

Lemma errors_string_app l1 l2 :
  errors_string (l1 ++ l2) = errors_string l1 +:+ errors_string l2.
Proof.
  unfold errors_string. rewrite fold_left_app.
  rewrite (fold_left_append entry_text l2 _).
  by rewrite <- (errors_string_concat l2).
Qed.

Lemma errors_string_one err :
  errors_string [err] =
  "Code: " +:+ fmt_d (messaging.ErrorInfo.Index err) +:+
  ", Message: " +:+ messaging.ErrorInfo.Reason err.
Proof. reflexivity. Qed.

(** X9.  The aggregated text lists every entry of the provider's error
    list, in the order of the list: for each entry, the text is the text of
    the entries before it, then the entry's index and reason, then the text
    of the entries after it, with nothing in between. *)
Theorem errors_string_split l1 err l2 :
  errors_string (l1 ++ err :: l2) =
  errors_string l1 +:+
  ("Code: " +:+ fmt_d (messaging.ErrorInfo.Index err) +:+
   ", Message: " +:+ messaging.ErrorInfo.Reason err) +:+
  errors_string l2.
Proof.
  change (err :: l2) with ([err] ++ l2).
  by rewrite !errors_string_app, errors_string_one.
Qed.

(** X10.  The aggregated text does not tell the entries apart: any list of
    two or more entries has the same text as a single entry, the first one
    with the text of the others appended to its reason.  A reader of the
    response cannot recover how many entries failed. *)
Theorem errors_string_ambiguous errors :
  (2 <= length errors)%nat ->
  exists single,
    length single = 1%nat /\ errors_string single = errors_string errors.
Proof.
  destruct errors as [|err rest]; simpl; [lia|]. intros _.
  exists [messaging.ErrorInfo.mk
            (messaging.ErrorInfo.Index err)
            (messaging.ErrorInfo.Reason err +:+ errors_string rest)].
  split; [reflexivity|].
  change (err :: rest) with ([err] ++ rest).
  rewrite errors_string_app, !errors_string_one. cbn [messaging.ErrorInfo.Index messaging.ErrorInfo.Reason].
  by rewrite !append_assoc.
Qed.

(** *** Start-up *)


(** *** Serving many requests *)

Lemma admits_env w w1 r : env w1 = env w -> admits w1 r = admits w r.
Proof. intros He. unfold admits, Getenv. by rewrite He. Qed.

Lemma admits_spec w r :
  admits w r = true <-> (exists e, targets r e) /\ authorized w r.
Proof.
  unfold admits, authorized. split.
  - destruct (endpoint_of r) as [e|] eqn:He; [|discriminate].
    intros Heq%String.eqb_eq. split; [|exact Heq].
    exists e. by apply endpoint_of_targets.
  - intros [[e Ht%endpoint_of_targets] Hauth]. rewrite Ht.
    by apply String.eqb_eq.
Qed.

Lemma ServeHTTP_calls state st r w :
  heap w !! state = Some st ->
  match gin.ServeHTTP (router state) r w with
  | Some (_, w') =>
      env w' = env w /\ heap w' = heap w /\
      length (calls w') =
        (length (calls w) + if admits w r then 1 else 0)%nat
  | None => admits w r = false
  end.
Proof.
  intros Hheap.
  destruct (gin.ServeHTTP (router state) r w) as [[resp w']|] eqn:Hs.
  - assert (exists e, targets r e) as [e Ht].
    { unfold gin.ServeHTTP in Hs.
      destruct (gin.getValue _ _ _) as [hs|] eqn:Hroute; [|discriminate].
      apply route_inv in Hroute as (e & ? & ?). by exists e. }
    destruct (authorized_dec w r) as [Hauth|Hna].
    + assert (admits w r = true) as -> by (apply admits_spec; eauto).
      destruct (ServeHTTP_authorized e state st r w Ht Hauth Hheap)
        as [entries He].
      rewrite He in Hs. injection Hs as _ <-. cbn [env heap calls].
      rewrite length_app. repeat split; reflexivity.
    + assert (admits w r = false) as ->.
      { apply not_true_is_false. intros [_ ?]%admits_spec. contradiction. }
      destruct (ServeHTTP_refused state e r w Ht Hna) as [msg He].
      rewrite He in Hs. injection Hs as _ <-.
      rewrite Nat.add_0_r. repeat split; reflexivity.
  - apply not_true_is_false. intros [[e [Hm Hp]] _]%admits_spec.
    unfold gin.ServeHTTP in Hs. rewrite Hm, Hp, route_of in Hs.
    by destruct (gin.Next _ _ _).
Qed.

(** X12.  The gateway forwards each admitted request once and nothing
    else: after any sequence of requests the number of provider calls made
    is the number of requests of the sequence that were on a route and
    carried the key.  No call is repeated, none is made for a refused or
    unrouted request. *)
Theorem provider_calls_counted state st requests w :
  heap w !! state = Some st ->
  length (calls (snd (Run (router state) requests w))) =
  (length (calls w) + length (List.filter (admits w) requests))%nat.
Proof.
  revert w. induction requests as [|r rest IH]; intros w Hheap.
  - simpl. lia.
  - pose proof (ServeHTTP_calls state st r w Hheap) as Hone.
    cbn [Run List.filter].
    destruct (gin.ServeHTTP (router state) r w) as [[resp w1]|].
    + destruct Hone as (He & Hh & Hlen).
      assert (heap w1 !! state = Some st) as Hheap1 by by rewrite Hh.
      specialize (IH w1 Hheap1).
      rewrite (List.filter_ext _ _ (fun r0 => admits_env w w1 r0 He)) in IH.
      destruct (Run (router state) rest w1) as [out w2]. cbn [snd] in *.
      rewrite IH, Hlen. destruct (admits w r); simpl; lia.
    + specialize (IH w Hheap). rewrite Hone.
      by destruct (Run (router state) rest w) as [out w2].
Qed.

(** X13.  Serving never writes the process environment: after any
    sequence of requests it is the one the server started serving with, so
    the key the filter compares against stays the same. *)
Theorem environment_unchanged_by_serving state st requests w :
  heap w !! state = Some st ->
  env (snd (Run (router state) requests w)) = env w.
Proof.
  intros Hheap. by destruct (Run_preserves state st requests w Hheap) as [? _].
Qed.

(** X14.  For a request that passed the filter, the body of the response
    is empty exactly when the provider reported success, whatever the
    status: a 400 with an empty body is a request the provider accepted. *)
Theorem empty_body_iff_provider_ok state st e r w :
  targets r e -> authorized w r -> heap w !! state = Some st ->
  exists resp w',
    gin.ServeHTTP (router state) r w = Some (resp, w') /\
    (gin.Body resp = [] <->
     reply_ok (fst (provider_reply (call_for e r (MsgClient st)) (fcm w))) = true).
Proof.
  intros Ht Hauth Hheap.
  destruct (ServeHTTP_authorized e state st r w Ht Hauth Hheap) as [entries ->].
  eexists _, _. split; [reflexivity|].
  unfold response_for. cbn [gin.Body].
  destruct (fst (provider_reply _ _)) as [[?|?]|[resp|?]]; simpl; try done.
  by destruct (_ =? 0).
Qed.

End Properties.

(** ** The gateway at work

    The theorems above, applied to the concrete deployment [Demo], and the
    runs on which four statements fail when the condition on the binding
    step is left out. *)

Import Demo.

(** "Bearer wrong" on /publish: 401, nothing else happens. *)
Lemma unauthorized_request_rejected_witness :
  exists msg,
    gin.ServeHTTP (router Demo.state)
      (Demo.request Publish "Bearer wrong" Demo.body_publish) Demo.world =
    Some (gin.mkResponse (Some StatusUnauthorized) [[("error", msg)]], Demo.world).
Proof.
  apply (unauthorized_request_rejected Demo.state Publish).
  - split; reflexivity.
  - right. right. exists "wrong". split; [reflexivity | discriminate].
Defined.

(** Subscribing t1 and t2 to news when the provider does not know t2: 502,
    and the failed entry (index 1) in the message. *)
Lemma topic_batch_response_witness :
  exists w',
    gin.ServeHTTP (router Demo.state)
      (Demo.request Subscribe Demo.bearer Demo.body_subscribe) Demo.world =
    Some (gin.mkResponse (Some StatusBadGateway)
            [[("errors",
               "errors while subscribing to topic: " +:+
               "Code: 1, Message: invalid-registration-token")]],
          w').
Proof.
  apply (topic_batch_response Demo.state (mkAppState 7%nat) Subscribe
           (Demo.request Subscribe Demo.bearer Demo.body_subscribe) Demo.world
           (messaging.TopicManagementResponse.mk 1 1
              [messaging.ErrorInfo.mk 1 "invalid-registration-token"])).
  - by left.
  - split; reflexivity.
  - reflexivity.
  - reflexivity.
  - reflexivity.
  - reflexivity.
Defined.

(** C2 as stated fails.  The body assigns tokens and topic and then trips
    on a numeric [topic]: the bind reports an error, the provider call goes
    through with zero failures, and the response is 400, not 202. *)
Lemma subscribe_zero_failures_answered_400 :
  let r := Demo.request Subscribe Demo.bearer Demo.body_subscribe_mistyped in
  targets r Subscribe /\
  authorized Demo.world r /\
  fst (provider_reply (call_for Subscribe r 7%nat) (fcm Demo.world)) =
    ReplyTopic (inl (messaging.TopicManagementResponse.mk 1 0 [])) /\
  fst <$> gin.ServeHTTP (router Demo.state) r Demo.world =
    Some (gin.mkResponse (Some StatusBadRequest) []).
Proof. repeat split. Qed.

(** A truncated body on /publish: the provider is called with the
    zero-valued message and the response is 400. *)
Lemma failed_bind_answers_400_witness :
  exists body w',
    gin.ServeHTTP (router Demo.state)
      (Demo.request Publish Demo.bearer Demo.body_truncated) Demo.world =
    Some (gin.mkResponse (Some StatusBadRequest) body, w') /\
    calls w' = calls Demo.world ++ [zero_call Publish 7%nat].
Proof.
  apply (failed_bind_answers_400 Demo.state (mkAppState 7%nat) Publish
           (Demo.request Publish Demo.bearer Demo.body_truncated) Demo.world).
  - split; reflexivity.
  - reflexivity.
  - reflexivity.
  - exists "unexpected EOF". reflexivity.
Defined.

(** C3 as stated fails.  On the truncated body the binding step itself
    puts status 400 on the wire, before the handler does anything else, and
    400 is what the caller receives, with the handler's error body. *)
Lemma malformed_body_answered_400 :
  let r := Demo.request Publish Demo.bearer Demo.body_truncated in
  targets r Publish /\
  authorized Demo.world r /\
  bound_zero Publish r /\
  gin.wire_status
    (gin.Writer
       (snd (gin.Bind (handler_context Demo.state r)
                      ShouldBind_PublishInput))) =
    Some StatusBadRequest /\
  fst <$> gin.ServeHTTP (router Demo.state) r Demo.world =
    Some (gin.mkResponse (Some StatusBadRequest)
            [[("error",
               "error found while publishing message: " +:+
               Demo.invalid_argument)]]).
Proof.
  repeat split. exists "unexpected EOF". reflexivity.
Qed.

(** The publish and broadcast scenarios: the message the provider gets. *)
Lemma message_passed_to_provider_witness :
  (exists resp w',
     gin.ServeHTTP (router Demo.state)
       (Demo.request Publish Demo.bearer Demo.body_publish) Demo.world =
     Some (resp, w') /\
     calls w' =
     calls Demo.world ++
     [messaging.CallSend 7%nat
        (messaging.Message.mk
           (Some (messaging.Notification.mk "Hi" "There" "")) "tok_abc" "" "")]) /\
  (exists resp w',
     gin.ServeHTTP (router Demo.state)
       (Demo.request Broadcast Demo.bearer Demo.body_broadcast) Demo.world =
     Some (resp, w') /\
     calls w' =
     calls Demo.world ++
     [messaging.CallSend 7%nat
        (messaging.Message.mk
           (Some (messaging.Notification.mk "Hi" "There" "")) "" "news" "")]).
Proof.
  split.
  - exact (proj1 (message_passed_to_provider Demo.state (mkAppState 7%nat)
                    (Demo.request Publish Demo.bearer Demo.body_publish)
                    Demo.world eq_refl eq_refl)
                 (conj eq_refl eq_refl)).
  - exact (proj2 (message_passed_to_provider Demo.state (mkAppState 7%nat)
                    (Demo.request Broadcast Demo.bearer Demo.body_broadcast)
                    Demo.world eq_refl eq_refl)
                 (conj eq_refl eq_refl)).
Defined.

(** The publish scenario: 202, empty body. *)
Lemma send_success_accepted_witness :
  exists w',
    gin.ServeHTTP (router Demo.state)
      (Demo.request Publish Demo.bearer Demo.body_publish) Demo.world =
    Some (gin.mkResponse (Some StatusAccepted) [], w').
Proof.
  apply (send_success_accepted Demo.state (mkAppState 7%nat) Publish
           (Demo.request Publish Demo.bearer Demo.body_publish) Demo.world "msg1").
  - by left.
  - split; reflexivity.
  - reflexivity.
  - reflexivity.
  - reflexivity.
  - reflexivity.
Defined.

(** C5 as stated fails.  The body assigns [to] and then trips on the
    notification: the bind reports an error, the provider delivers the
    message, and the response is 400, not 202. *)
Lemma delivered_publish_answered_400 :
  let r := Demo.request Publish Demo.bearer Demo.body_publish_mistyped in
  targets r Publish /\
  authorized Demo.world r /\
  fst (provider_reply (call_for Publish r 7%nat) (fcm Demo.world)) =
    ReplySend (inl "msg1") /\
  fst <$> gin.ServeHTTP (router Demo.state) r Demo.world =
    Some (gin.mkResponse (Some StatusBadRequest) []).
Proof. repeat split. Qed.

(** A publish body without [to]: the provider refuses the message, 502. *)
Lemma provider_error_bad_gateway_witness :
  exists w',
    gin.ServeHTTP (router Demo.state)
      (Demo.request Publish Demo.bearer Demo.body_publish_unaddressed) Demo.world =
    Some (gin.mkResponse (Some StatusBadGateway)
            [[("error",
               "error found while publishing message: " +:+ Demo.invalid_argument)]],
          w') /\
    calls w' =
    calls Demo.world ++
    [call_for Publish
       (Demo.request Publish Demo.bearer Demo.body_publish_unaddressed) 7%nat].
Proof.
  apply (provider_error_bad_gateway Demo.state (mkAppState 7%nat) Publish
           (Demo.request Publish Demo.bearer Demo.body_publish_unaddressed)
           Demo.world Demo.invalid_argument).
  - split; reflexivity.
  - reflexivity.
  - reflexivity.
  - reflexivity.
  - reflexivity.
Defined.

(** C6 as stated fails.  On a truncated /subscribe body the provider
    refuses the empty token list; its error text is in the body, but the
    status is 400, not 502. *)
Lemma provider_error_answered_400 :
  let r := Demo.request Subscribe Demo.bearer Demo.body_truncated in
  targets r Subscribe /\
  authorized Demo.world r /\
  reply_error (fst (provider_reply (call_for Subscribe r 7%nat) (fcm Demo.world))) =
    Some "no tokens specified" /\
  fst <$> gin.ServeHTTP (router Demo.state) r Demo.world =
    Some (gin.mkResponse (Some StatusBadRequest)
            [[("error",
               "error found while subscribing to topic: no tokens specified")]]).
Proof. repeat split. Qed.

(** Subscribing t1 to news twice in a row. *)
Lemma subscribe_twice_same_outcome_witness :
  exists resp w1,
    gin.ServeHTTP (router Demo.state)
      (Demo.request Subscribe Demo.bearer Demo.body_subscribe_one) Demo.world =
    Some (resp, w1) /\
    (fst (provider_reply
            (call_for Subscribe
               (Demo.request Subscribe Demo.bearer Demo.body_subscribe_one) 7%nat)
            (fcm w1)) =
     fst (provider_reply
            (call_for Subscribe
               (Demo.request Subscribe Demo.bearer Demo.body_subscribe_one) 7%nat)
            (fcm Demo.world)) ->
     exists w2,
       gin.ServeHTTP (router Demo.state)
         (Demo.request Subscribe Demo.bearer Demo.body_subscribe_one) w1 =
       Some (resp, w2)).
Proof.
  apply (proj1 (subscribe_twice_same_outcome Demo.state (mkAppState 7%nat)
                  (Demo.request Subscribe Demo.bearer Demo.body_subscribe_one)
                  Demo.world (conj eq_refl eq_refl) eq_refl)).
Defined.

(** [main] on the demo start-up serves in [Demo.world], around the cell
    [Demo.state]. *)
Lemma app_state_never_mutated_witness :
  exists client,
    router Demo.state = router Demo.state /\
    heap Demo.boot !! Demo.state = None /\
    heap Demo.world = <[Demo.state := mkAppState client]> (heap Demo.boot) /\
    forall requests,
      let w' := snd (Run (router Demo.state) requests Demo.world) in
      heap w' = heap Demo.world /\
      exists new, calls w' = calls Demo.world ++ new /\
                  Forall (fun call => client_of call = client) new.
Proof.
  apply (app_state_never_mutated Demo.startup Demo.boot (router Demo.state)
           Demo.state Demo.world).
  reflexivity.
Defined.

(** Unsubscribing t1 and t2 from news when the provider does not know t2. *)
Lemma unsubscribe_labelled_subscribing_witness :
  exists status rest w',
    gin.ServeHTTP (router Demo.state)
      (Demo.request Unsubscribe Demo.bearer Demo.body_subscribe) Demo.world =
    Some (gin.mkResponse (Some status)
            [[("errors", "errors while subscribing to topic" +:+ rest)]], w') /\
    (bind_error Unsubscribe
       (Demo.request Unsubscribe Demo.bearer Demo.body_subscribe) = None ->
     status = StatusBadGateway) /\
    exists sb,
      logs w' =
      logs Demo.world ++
      [log.mkEntry log.ErrorLevel "error while subscribing to topic"
                   [("errors", log.VString sb)]].
Proof.
  apply (unsubscribe_labelled_subscribing Demo.state (mkAppState 7%nat)
           (Demo.request Unsubscribe Demo.bearer Demo.body_subscribe) Demo.world
           (messaging.TopicManagementResponse.mk 1 1
              [messaging.ErrorInfo.mk 1 "invalid-registration-token"])).
  - split; reflexivity.
  - reflexivity.
  - reflexivity.
  - reflexivity.
  - discriminate.
Defined.

(** No API_KEY in the environment: the bare Bearer scheme gets through. *)
Lemma empty_key_admits_empty_bearer_witness :
  exists resp w',
    gin.ServeHTTP (router Demo.state)
      (Demo.request Publish "Bearer " Demo.body_publish) Demo.world_nokey =
    Some (resp, w') /\
    calls w' =
    calls Demo.world_nokey ++
    [call_for Publish (Demo.request Publish "Bearer " Demo.body_publish) 7%nat].
Proof.
  apply (proj1 (empty_key_admits_empty_bearer Demo.state (mkAppState 7%nat) Publish
                  (Demo.request Publish "Bearer " Demo.body_publish)
                  Demo.world_nokey (conj eq_refl eq_refl) eq_refl)).
  - left. reflexivity.
  - reflexivity.
Defined.

(** Two more runs: the wrong key and the missing header, with the messages
    of the filter. *)
Example wrong_key_refused :
  gin.ServeHTTP (router Demo.state)
    (Demo.request Publish "Bearer wrong" Demo.body_publish) Demo.world =
  Some (gin.mkResponse (Some 401) [[("error", "Unauthorized: Invalid API Key")]],
        Demo.world).
Proof. reflexivity. Qed.

Example missing_header_refused :
  gin.ServeHTTP (router Demo.state)
    (Demo.anonymous Subscribe Demo.body_subscribe) Demo.world =
  Some (gin.mkResponse (Some 401)
          [[("error", "Unauthorized: Missing or invalid token")]],
        Demo.world).
Proof. reflexivity. Qed.

(** The scheme is matched byte for byte: a lower-case scheme is refused. *)
Example lower_case_scheme_refused :
  fst <$> gin.ServeHTTP (router Demo.state)
            (Demo.request Broadcast "bearer secret123" Demo.body_broadcast)
            Demo.world =
  Some (gin.mkResponse (Some 401)
          [[("error", "Unauthorized: Missing or invalid token")]]).
Proof. reflexivity. Qed.

(** ** More runs of the gateway *)

(** The two refusals on the demo deployment. *)
Lemma filter_messages_witness :
  gin.ServeHTTP (router Demo.state)
    (Demo.anonymous Publish Demo.body_publish) Demo.world =
  Some (gin.mkResponse (Some StatusUnauthorized)
          [[("error", "Unauthorized: Missing or invalid token")]], Demo.world) /\
  gin.ServeHTTP (router Demo.state)
    (Demo.request Publish "Bearer wrong" Demo.body_publish) Demo.world =
  Some (gin.mkResponse (Some StatusUnauthorized)
          [[("error", "Unauthorized: Invalid API Key")]], Demo.world).
Proof.
  split.
  - exact (proj1 (filter_messages Demo.state Publish
                    (Demo.anonymous Publish Demo.body_publish) Demo.world
                    (conj eq_refl eq_refl))
                 eq_refl).
  - apply (proj2 (filter_messages Demo.state Publish
                    (Demo.request Publish "Bearer wrong" Demo.body_publish)
                    Demo.world (conj eq_refl eq_refl))
                 "wrong"); [reflexivity | discriminate].
Defined.

(** The publish scenario falls in the third case: accepted. *)
Lemma status_classification_witness :
  let r := Demo.request Publish Demo.bearer Demo.body_publish in
  let resp := gin.mkResponse (Some StatusAccepted) [] in
  exists e,
    targets r e /\
    let rep := fst (provider_reply (call_for e r 7%nat) (fcm Demo.world)) in
    (~ authorized Demo.world r /\
     gin.StatusCode resp = Some StatusUnauthorized) \/
    (authorized Demo.world r /\ bind_error e r <> None /\
     gin.StatusCode resp = Some StatusBadRequest) \/
    (authorized Demo.world r /\ bind_error e r = None /\ reply_ok rep = true /\
     gin.StatusCode resp = Some StatusAccepted /\ gin.Body resp = []) \/
    (authorized Demo.world r /\ bind_error e r = None /\ reply_ok rep = false /\
     gin.StatusCode resp = Some StatusBadGateway).
Proof.
  exact (status_classification Demo.state (mkAppState 7%nat)
           (Demo.request Publish Demo.bearer Demo.body_publish) Demo.world
           (gin.mkResponse (Some StatusAccepted) [])
           (default Demo.world
              (snd <$> gin.ServeHTTP (router Demo.state)
                         (Demo.request Publish Demo.bearer Demo.body_publish)
                         Demo.world))
           eq_refl eq_refl).
Defined.

(** The mistyped publish body: 400, empty body, and the message sent. *)
Lemma failed_bind_still_forwards_witness :
  exists w',
    gin.ServeHTTP (router Demo.state)
      (Demo.request Publish Demo.bearer Demo.body_publish_mistyped) Demo.world =
    Some (gin.mkResponse (Some StatusBadRequest) [], w') /\
    calls w' =
      calls Demo.world ++
      [messaging.CallSend 7%nat
         (messaging.Message.mk
            (Some (messaging.Notification.mk "" "" "")) "tok_abc" "" "")] /\
    fcm w' = fcm Demo.world.
Proof.
  exact (failed_bind_still_forwards Demo.state (mkAppState 7%nat) Publish
           (Demo.request Publish Demo.bearer Demo.body_publish_mistyped)
           Demo.world
           (Demo.mismatch "string" "PublishInput.notification" "main.Notification")
           (conj eq_refl eq_refl) eq_refl eq_refl eq_refl).
Defined.

(** Subscribing and unsubscribing t1 and t2. *)
Lemma topic_request_forwarded_witness :
  (exists resp w',
     gin.ServeHTTP (router Demo.state)
       (Demo.request Subscribe Demo.bearer Demo.body_subscribe) Demo.world =
     Some (resp, w') /\
     calls w' =
       calls Demo.world ++
       [messaging.CallSubscribeToTopic 7%nat ["t1"; "t2"] "news"]) /\
  (exists resp w',
     gin.ServeHTTP (router Demo.state)
       (Demo.request Unsubscribe Demo.bearer Demo.body_subscribe) Demo.world =
     Some (resp, w') /\
     calls w' =
       calls Demo.world ++
       [messaging.CallUnsubscribeFromTopic 7%nat ["t1"; "t2"] "news"]).
Proof.
  split.
  - exact (proj1 (topic_request_forwarded Demo.state (mkAppState 7%nat)
                    (Demo.request Subscribe Demo.bearer Demo.body_subscribe)
                    Demo.world eq_refl eq_refl)
                 (conj eq_refl eq_refl)).
  - exact (proj2 (topic_request_forwarded Demo.state (mkAppState 7%nat)
                    (Demo.request Unsubscribe Demo.bearer Demo.body_subscribe)
                    Demo.world eq_refl eq_refl)
                 (conj eq_refl eq_refl)).
Defined.

(** The publish handler on a fresh context, which holds no state. *)
Lemma handler_without_state_panics_witness :
  exists v c' w',
    handler_of Publish last_next
      (gin.reset (Demo.request Publish Demo.bearer Demo.body_publish))
      Demo.world =
    gin.Panicked v c' w' /\
    calls w' = calls Demo.world /\ fcm w' = fcm Demo.world.
Proof.
  apply (handler_without_state_panics Publish last_next
           (gin.reset (Demo.request Publish Demo.bearer Demo.body_publish))
           Demo.world).
  left. reflexivity.
Defined.


(** Subscribing t1 and t2: the provider reports a failure, the last line
    is at error level. *)
Lemma log_level_matches_outcome_witness :
  exists resp w' before outcome,
    gin.ServeHTTP (router Demo.state)
      (Demo.request Subscribe Demo.bearer Demo.body_subscribe) Demo.world =
    Some (resp, w') /\
    logs w' = logs Demo.world ++ before ++ [outcome] /\
    length before = 0%nat /\
    log.level outcome = log.ErrorLevel.
Proof.
  exact (log_level_matches_outcome Demo.state (mkAppState 7%nat) Subscribe
           (Demo.request Subscribe Demo.bearer Demo.body_subscribe) Demo.world
           (conj eq_refl eq_refl) eq_refl eq_refl).
Defined.

(** Two failed entries read like one. *)
Lemma errors_string_ambiguous_witness :
  exists single,
    length single = 1%nat /\
    errors_string single =
    errors_string [messaging.ErrorInfo.mk 0 "invalid-registration-token";
                   messaging.ErrorInfo.mk 3 "unregistered"].
Proof.
  apply (errors_string_ambiguous
           [messaging.ErrorInfo.mk 0 "invalid-registration-token";
            messaging.ErrorInfo.mk 3 "unregistered"]).
  simpl. lia.
Defined.

(** Of the five requests of the batch, two reach the provider. *)
Lemma provider_calls_counted_witness :
  length (calls (snd (Run (router Demo.state) Demo.batch Demo.world))) =
  (length (calls Demo.world) +
   length (List.filter (admits Demo.world) Demo.batch))%nat /\
  length (List.filter (admits Demo.world) Demo.batch) = 2%nat.
Proof.
  split; [|reflexivity].
  apply (provider_calls_counted Demo.state (mkAppState 7%nat) Demo.batch
           Demo.world).
  reflexivity.
Defined.

(** The environment after the batch. *)
Lemma environment_unchanged_by_serving_witness :
  env (snd (Run (router Demo.state) Demo.batch Demo.world)) = env Demo.world.
Proof.
  apply (environment_unchanged_by_serving Demo.state (mkAppState 7%nat)
           Demo.batch Demo.world).
  reflexivity.
Defined.

(** The mistyped publish body: the provider accepted, the body is empty. *)
Lemma empty_body_iff_provider_ok_witness :
  exists resp w',
    gin.ServeHTTP (router Demo.state)
      (Demo.request Publish Demo.bearer Demo.body_publish_mistyped) Demo.world =
    Some (resp, w') /\
    (gin.Body resp = [] <->
     reply_ok
       (fst (provider_reply
               (call_for Publish
                  (Demo.request Publish Demo.bearer Demo.body_publish_mistyped)
                  7%nat)
               (fcm Demo.world))) = true).
Proof.
  exact (empty_body_iff_provider_ok Demo.state (mkAppState 7%nat) Publish
           (Demo.request Publish Demo.bearer Demo.body_publish_mistyped)
           Demo.world (conj eq_refl eq_refl) eq_refl eq_refl).
Defined.
